(** * Daily sales report: the workbook core and its dispatcher

    A shallow embedding of [TP_reportes_diarios.py]: the rate lookup
    ([DollarAPI]), the spreadsheet operations ([SalesReportExcel]) on a model
    of the openpyxl workbook they drive, the mail step ([EmailNotifier]) and
    the dispatcher ([DailySalesReport.generate_report]).

    Scope of the model.  The program never computes with amounts or rates: it
    only stores them in cells and prints them into formula text.  A float is
    therefore carried by its printed form.  Strings are plain text (no control
    characters, shorter than a cell's 32767 character limit).  A sale record
    holds scalars, the values a cell stores; network and file-system outcomes
    are inputs of a run. *)

From Stdlib Require Import Ascii String DecimalString DecimalNat DecimalZ.
From stdpp Require Import gmap strings list numbers list_numbers.

Local Open Scope string_scope.
Local Open Scope list_scope.
Local Open Scope nat_scope.
Set Warnings "-register-all".

(** ** Python values *)

Module Py.

(** A scalar: what a JSON leaf decodes to and what a cell stores. *)
Inductive scalar :=
  | SNone
  | SBool (b : bool)
  | SInt (z : Z)
  | SFloat (repr : string)
  | SStr (s : string).

(** A decoded JSON document. A dict keeps its items in insertion order. *)
Inductive json :=
  | JScalar (v : scalar)
  | JList (l : list json)
  | JDict (d : list (string * json)).

(** Instances of [Exception]. *)
Inductive exn :=
  | KeyError (key : string)
  | TypeError (msg : string)
  | ValueError (msg : string)
  | AttributeError (msg : string)
  | FileNotFoundError (path : string)
  | OtherError (cls msg : string).

Inductive result (A : Type) :=
  | Ok (a : A)
  | Raise (e : exn).
Global Arguments Ok {A} a.
Global Arguments Raise {A} e.

Definition bind {A B} (r : result A) (k : A → result B) : result B :=
  match r with
  | Ok a => k a
  | Raise e => Raise e
  end.

(** [str(n)] for a non-negative and for a signed integer. *)
Definition str_nat (n : nat) : string := NilZero.string_of_uint (Nat.to_uint n).
Definition str_Z (z : Z) : string := NilZero.string_of_int (Z.to_int z).

Definition is_digit (c : ascii) : bool :=
  let n := nat_of_ascii c in (48 <=? n)%nat && (n <=? 57)%nat.

(** [repr] of a string: single quotes unless the text has a single quote and
    no double quote; the quote, the backslash and the control characters are
    escaped. *)
Fixpoint has_char (c : ascii) (s : string) : bool :=
  match s with
  | EmptyString => false
  | String c' s' => if Ascii.eqb c c' then true else has_char c s'
  end.

Definition dquote : ascii := ascii_of_nat 34.

Definition hex_digit (n : nat) : ascii :=
  ascii_of_nat (if (n <? 10)%nat then 48 + n else 87 + n).

Definition repr_char (quote c : ascii) : string :=
  let n := nat_of_ascii c in
  if Ascii.eqb c quote || Ascii.eqb c "\"%char then String "\" (String c "")
  else if (n =? 9)%nat then "\t"
  else if (n =? 10)%nat then "\n"
  else if (n =? 13)%nat then "\r"
  else if (n <? 32)%nat || (n =? 127)%nat
       then String "\" (String "x" (String (hex_digit (n / 16)) (String (hex_digit (n mod 16)) "")))
  else String c "".

Fixpoint repr_chars (quote : ascii) (s : string) : string :=
  match s with
  | EmptyString => ""
  | String c s' => repr_char quote c +:+ repr_chars quote s'
  end.

Definition repr_str (s : string) : string :=
  let quote : ascii :=
    if has_char "'" s && negb (has_char dquote s) then dquote else "'"%char in
  String quote (repr_chars quote s +:+ String quote "").

(** [str(v)], which is also what an f-string field [{v}] prints. *)
Definition str_scalar (v : scalar) : string :=
  match v with
  | SNone => "None"
  | SBool true => "True"
  | SBool false => "False"
  | SInt z => str_Z z
  | SFloat r => r
  | SStr s => s
  end.

Definition repr_scalar (v : scalar) : string :=
  match v with
  | SStr s => repr_str s
  | _ => str_scalar v
  end.

Fixpoint join (sep : string) (l : list string) : string :=
  match l with
  | [] => ""
  | [s] => s
  | s :: l' => s +:+ sep +:+ join sep l'
  end.

Fixpoint repr_json (j : json) : string :=
  match j with
  | JScalar v => repr_scalar v
  | JList l => "[" +:+ join ", " (map repr_json l) +:+ "]"
  | JDict d =>
      "{" +:+ join ", " (map (λ kv, repr_str (fst kv) +:+ ": " +:+ repr_json (snd kv)) d) +:+ "}"
  end.

Definition str_json (j : json) : string :=
  match j with
  | JScalar v => str_scalar v
  | _ => repr_json j
  end.

(** [d[key]] with a string key; [j[key]] raises the type error of Python
    3.11 when [j] is no dict. *)
Fixpoint dict_get (key : string) (d : list (string * json)) : option json :=
  match d with
  | [] => None
  | (k, v) :: d' => if String.eqb k key then Some v else dict_get key d'
  end.

Definition getitem (j : json) (key : string) : result json :=
  match j with
  | JDict d =>
      match dict_get key d with
      | Some v => Ok v
      | None => Raise (KeyError key)
      end
  | JList _ => Raise (TypeError "list indices must be integers or slices, not str")
  | JScalar (SStr _) => Raise (TypeError "string indices must be integers, not 'str'")
  | JScalar SNone => Raise (TypeError "'NoneType' object is not subscriptable")
  | JScalar (SBool _) => Raise (TypeError "'bool' object is not subscriptable")
  | JScalar (SInt _) => Raise (TypeError "'int' object is not subscriptable")
  | JScalar (SFloat _) => Raise (TypeError "'float' object is not subscriptable")
  end.

(** [str(e)] as the log lines print it. *)
Definition str_exn (e : exn) : string :=
  match e with
  | KeyError k => repr_str k
  | TypeError m | ValueError m | AttributeError m | OtherError _ m => m
  | FileNotFoundError p => "[Errno 2] No such file or directory: " +:+ repr_str p
  end.

End Py.
Import Py.

(** ** The openpyxl workbook the program drives *)

Module Openpyxl.

Definition coord : Type := nat * nat.

Inductive border := NoBorder | ThickBorder.

Record cell := Cell { value : scalar; cell_border : border }.

Inductive data_type := TNumeric | TBool | TString | TFormula | TError.

Definition ERROR_CODES : list string :=
  ["#NULL!"; "#DIV/0!"; "#VALUE!"; "#REF!"; "#NAME?"; "#NUM!"; "#N/A"].

(** The type a cell infers for its value: a string longer than one character
    that starts with [=] is a formula. *)
Definition data_type_of (v : scalar) : data_type :=
  match v with
  | SNone | SInt _ | SFloat _ => TNumeric
  | SBool _ => TBool
  | SStr s =>
      if (1 <? String.length s)%nat && String.prefix "=" s then TFormula
      else if bool_decide (s ∈ ERROR_CODES) then TError
      else TString
  end.

Record worksheet := Worksheet {
  title : string;
  cells : gmap coord cell;
  current_row : nat
}.

Definition blank_sheet (t : string) : worksheet := Worksheet t ∅ 0.

Definition row_indices (ws : worksheet) : list nat := (λ kv, fst (fst kv)) <$> map_to_list (cells ws).
Definition column_indices (ws : worksheet) : list nat := (λ kv, snd (fst kv)) <$> map_to_list (cells ws).

(** [ws.max_row]: the largest row index holding a cell, 1 on a sheet with no
    cell. *)
Definition max_row (ws : worksheet) : nat :=
  match row_indices ws with
  | [] => 1
  | rows => max_list rows
  end.

Definition max_column (ws : worksheet) : nat :=
  match column_indices ws with
  | [] => 1
  | cols => max_list cols
  end.

Fixpoint put_row (r c : nat) (vs : list scalar) (m : gmap coord cell) : gmap coord cell :=
  match vs with
  | [] => m
  | v :: vs' => put_row r (S c) vs' (<[(r, c) := Cell v NoBorder]> m)
  end.

(** [ws.append(row)]: fresh cells on the row after the last appended one. *)
Definition append (row : list scalar) (ws : worksheet) : worksheet :=
  let row_idx := S (current_row ws) in
  Worksheet (title ws) (put_row row_idx 1 row (cells ws)) row_idx.

(** [ws.cell(row, column)] makes the cell when the sheet has none there. *)
Definition get_cell (k : coord) (ws : worksheet) : worksheet :=
  match cells ws !! k with
  | Some _ => ws
  | None => Worksheet (title ws) (<[k := Cell SNone NoBorder]> (cells ws)) (fst k `max` current_row ws)
  end.

Definition set_value (k : coord) (v : scalar) (ws : worksheet) : worksheet :=
  let ws := get_cell k ws in
  Worksheet (title ws) (alter (λ c, Cell v (cell_border c)) k (cells ws)) (current_row ws).

Definition set_border (b : border) (ws : worksheet) (k : coord) : worksheet :=
  let ws := get_cell k ws in
  Worksheet (title ws) (alter (λ c, Cell (value c) b) k (cells ws)) (current_row ws).

(** The cells [ws.iter_rows(min_row=r)] visits, row by row; the bounds are
    read once, before the first cell is visited. *)
Definition iter_rows (min_row : nat) (ws : worksheet) : list coord :=
  r ← seq min_row (S (max_row ws) - min_row);
  c ← seq 1 (max_column ws);
  [(r, c)].

(** A cell name such as F2: column letters, then the row number. *)
Definition is_upper (c : ascii) : bool :=
  let n := nat_of_ascii c in (65 <=? n)%nat && (n <=? 90)%nat.

Fixpoint split_letters (s : string) : list ascii * string :=
  match s with
  | String c s' =>
      if is_upper c then let '(ls, rest) := split_letters s' in (c :: ls, rest)
      else ([], s)
  | EmptyString => ([], EmptyString)
  end.

Definition column_index_from_string (ls : list ascii) : nat :=
  foldl (λ acc c, 26 * acc + (nat_of_ascii c - 64)) 0 ls.

Definition coordinate_from_string (key : string) : option coord :=
  let '(ls, digits) := split_letters key in
  match ls, NilEmpty.uint_of_string digits with
  | _ :: _, Some u =>
      let r := Nat.of_uint u in
      if (0 <? r)%nat then Some (r, column_index_from_string ls) else None
  | _, _ => None
  end.

(** [ws[key] = v] for the name of a single cell. *)
Definition setitem (key : string) (v : scalar) (ws : worksheet) : result worksheet :=
  match coordinate_from_string key with
  | Some k => Ok (set_value k v ws)
  | None => Raise (ValueError (key +:+ " is not a valid coordinate or range"))
  end.

(** *** Sheet titles *)

Definition lower_char (c : ascii) : ascii :=
  if is_upper c then ascii_of_nat (nat_of_ascii c + 32) else c.

Fixpoint lower (s : string) : string :=
  match s with
  | EmptyString => EmptyString
  | String c s' => String (lower_char c) (lower s')
  end.

Fixpoint strip_prefix_ci (p s : string) : option string :=
  match p, s with
  | EmptyString, _ => Some s
  | String a p', String b s' =>
      if Ascii.eqb (lower_char a) (lower_char b) then strip_prefix_ci p' s' else None
  | String _ _, EmptyString => None
  end.

Fixpoint span_digits (s : string) : string * string :=
  match s with
  | String c s' =>
      if is_digit c then let '(ds, rest) := span_digits s' in (String c ds, rest)
      else (EmptyString, s)
  | EmptyString => (EmptyString, EmptyString)
  end.

Definition leading_comma (s : string) : nat :=
  match s with
  | String c _ => if Ascii.eqb c "," then 1 else 0
  | EmptyString => 0
  end.

(** The count groups of the matches of the pattern (value)(digits)(optional
    comma), case ignored, found left to right without overlap; [skip] is the
    number of characters of a match still to pass. *)
Fixpoint findall_counts (value : string) (skip : nat) (s : string) : list string :=
  match s with
  | EmptyString => []
  | String _ s' =>
      match skip with
      | S k => findall_counts value k s'
      | O =>
          match strip_prefix_ci value s with
          | Some rest =>
              let '(ds, rest') := span_digits rest in
              ds :: findall_counts value
                      (String.length value + String.length ds + leading_comma rest' - 1) s'
          | None => findall_counts value 0 s'
          end
      end
  end.

Definition int_of_digits (ds : string) : nat :=
  match NilEmpty.uint_of_string ds with
  | Some u => Nat.of_uint u
  | None => 0
  end.

(** When a sheet already has the name, whatever the case of its letters, the
    name gets the next number after the highest one in use. *)
Definition avoid_duplicate_name (names : list string) (value : string) : string :=
  match filter (λ n, lower n = lower value) names with
  | [] => value
  | _ :: _ =>
      match findall_counts value 0 (join "," names) with
      | [] => value
      | matches =>
          let counts := int_of_digits <$> filter (λ ds, ds ≠ EmptyString) matches in
          value +:+ str_nat (max_list counts + 1)
      end
  end.

Definition INVALID_TITLE_CHARS : list ascii :=
  ["\"; "*"; "?"; ":"; "/"; "["; "]"]%char.

Definition invalid_title (t : string) : bool :=
  existsb (λ c, has_char c t) INVALID_TITLE_CHARS.

Record workbook := Workbook {
  sheets : list worksheet;
  active_sheet_index : nat
}.

(** [Workbook()] starts with one blank sheet, which is the active one. *)
Definition new_workbook : workbook := Workbook [blank_sheet "Sheet"] 0.

Definition sheetnames (wb : workbook) : list string := title <$> sheets wb.

(** A worksheet object is named by its place in [sheets]; [wb.active]. *)
Definition active (wb : workbook) : option nat :=
  if decide (active_sheet_index wb < length (sheets wb)) then Some (active_sheet_index wb) else None.

Definition remove (ws : nat) (wb : workbook) : workbook :=
  Workbook (delete ws (sheets wb)) (active_sheet_index wb).

(** [wb.create_sheet(title)]: the sheet goes last; returns its handle. *)
Definition create_sheet (name : string) (wb : workbook) : result (workbook * nat) :=
  let name := if decide (name = EmptyString) then "Sheet" else name in
  if invalid_title name then Raise (ValueError "Invalid character found in sheet title")
  else
    let t := avoid_duplicate_name (sheetnames wb) name in
    Ok (Workbook (sheets wb ++ [blank_sheet t]) (active_sheet_index wb), length (sheets wb)).

(** An update of the sheet behind a handle, seen by every holder of it. *)
Definition with_sheet (ws : nat) (f : worksheet → worksheet) (wb : workbook) : workbook :=
  Workbook (alter f ws (sheets wb)) (active_sheet_index wb).

End Openpyxl.
Import Openpyxl.

(** ** The program *)

(** The calendar date of a clock reading. *)
Record datetime := Datetime { year : nat; month : nat; day : nat }.

Fixpoint zeros (n : nat) : string :=
  match n with
  | O => EmptyString
  | S n' => String "0" (zeros n')
  end.

Definition zero_pad (width n : nat) : string :=
  let s := str_nat n in zeros (width - String.length s) +:+ s.

(** [d.strftime("%Y-%m-%d")]; the clock reads no year before 1000, where
    platforms differ on the padding. *)
Definition strftime (d : datetime) : string :=
  zero_pad 4 (year d) +:+ "-" +:+ zero_pad 2 (month d) +:+ "-" +:+ zero_pad 2 (day d).

Record Sale := mkSale {
  client : scalar;
  products : scalar;
  amount : scalar;
  date : scalar
}.

(** *** DollarAPI *)

(** What [requests.get] hands back: [response.json()] decodes or raises. *)
Record response := Response { json_body : result json }.

Inductive level := WARNING | ERROR.

Definition logger : Type := list (level * string).

(** [get_historical_rate]: the value and the log lines it adds. [reply] is
    the outcome of the GET request. *)
Definition get_historical_rate (reply : result response) : result json * logger :=
  let body :=
    bind reply (λ response,
    bind (json_body response) (λ doc,
    bind (getitem doc "oficial") (λ oficial,
    getitem oficial "value_avg"))) in
  match body with
  | Ok v => (Ok v, [])
  | Raise e => (Ok (JScalar SNone), [(ERROR, "Error API Dólar: " +:+ str_exn e)])
  end.

(** *** SalesReportExcel *)

Abbreviation file_system := (gmap string workbook).

(** A file is modelled by the workbook that was written to it: its sheets in
    their order, their titles, formulas and borders. What a reload changes
    inside a cell, an empty text read back as no value, is not tracked. *)
Definition load_workbook (path : string) (fs : file_system) : result workbook :=
  match fs !! path with
  | Some wb => Ok wb
  | None => Raise (FileNotFoundError path)
  end.

Record SalesReportExcel := mkExcel {
  file_path : string;
  workbook_of : workbook
}.

Definition SalesReportExcel_init (path : string) (fs : file_system) : result SalesReportExcel :=
  match load_workbook path fs with
  | Ok wb => Ok (mkExcel path wb)
  | Raise (FileNotFoundError _) =>
      let wb := new_workbook in
      match active wb with
      | Some ws => Ok (mkExcel path (remove ws wb))
      | None => Raise (ValueError "list.remove(x): x not in list")
      end
  | Raise e => Raise e
  end.

Definition HEADER : list scalar :=
  SStr <$> ["Cliente"; "Productos"; "Importe USD"; "Fecha"; "Importe ARS"; "Promedio Diario"; "Acumulado"].

(** The row of one sale; the formula text reads [ws.max_row] while the list
    is built, before [append] runs. *)
Definition sale_row (usd_rate : json) (ws : worksheet) (sale : Sale) : list scalar :=
  [ client sale; products sale; amount sale; date sale;
    SStr ("=C" +:+ str_nat (max_row ws) +:+ "*" +:+ str_json usd_rate);
    SStr EmptyString; SStr EmptyString ].

Definition append_sale (usd_rate : json) (ws : worksheet) (sale : Sale) : worksheet :=
  append (sale_row usd_rate ws sale) ws.

Definition sheet_at (ws : nat) (wb : workbook) : result worksheet :=
  match sheets wb !! ws with
  | Some w => Ok w
  | None => Raise (OtherError "ReferenceError" "no such worksheet")
  end.

(** [_get_thick_border]: the four sides are thick. *)
Definition _get_thick_border : border := ThickBorder.

Definition days_count_of (wb : workbook) (worksheet : worksheet) : nat :=
  length (filter (λ s, s ≠ title worksheet) (sheetnames wb)).

Definition _calculate_financials (worksheet : nat) (usd_rate : json) (wb : workbook)
  : result workbook :=
  bind (sheet_at worksheet wb) (λ w,
  let days_count := days_count_of wb w in
  let last_row := max_row w in
  bind (setitem "F2" (SStr ("=E2/" +:+ str_nat days_count)) w) (λ w,
  bind (setitem "G2" (SStr ("=SUM(E2:E" +:+ str_nat last_row +:+ ")")) w) (λ w,
  let w := foldl (set_border _get_thick_border) w (iter_rows 2 w) in
  Ok (Workbook (<[worksheet := w]> (sheets wb)) (active_sheet_index wb))))).

(** [now] is the reading of [datetime.now()]. *)
Definition add_daily_sheet (now : datetime) (data : list Sale) (usd_rate : json)
  (wb : workbook) : result workbook :=
  let sheet_name := strftime now in
  bind (create_sheet sheet_name wb) (λ '(wb, ws),
  let wb := with_sheet ws (append HEADER) wb in
  let wb := foldl (λ wb sale, with_sheet ws (λ w, append_sale usd_rate w sale) wb) wb data in
  _calculate_financials ws usd_rate wb).

Definition a_sale : Sale := mkSale (SStr "A") (SStr "X") (SInt 100) (SStr "2024-01-01").
Definition jan1 : datetime := Datetime 2024 1 1.
Definition jan2 : datetime := Datetime 2024 1 2.
Definition no_sheets : workbook := Workbook [] 0.

Definition value_at (k : coord) (w : worksheet) : option scalar := value <$> cells w !! k.

(** The last sheet of the workbook a call returned. *)
Definition new_sheet (r : result workbook) : option worksheet :=
  match r with
  | Ok wb => last (sheets wb)
  | Raise _ => None
  end.

(** *** EmailNotifier and the dispatcher *)

Record smtp_config := SmtpConfig {
  host : string;
  port : nat;
  user : string;
  password : string
}.

Record mail := Mail {
  sender : string;
  recipient : string;
  subject : string;
  filename : string;
  payload : workbook
}.

(** What a caller may pass as a path: a plain string, or a path object, which
    has a [name]. *)
Inductive attachment :=
  | StrPath (path : string)
  | PathObject (path name : string).

Definition path_of (a : attachment) : string :=
  match a with
  | StrPath p | PathObject p _ => p
  end.

(** The inputs of one run: what the collaborators answer and what the clock
    reads. The dates sent with the two requests only select these answers. *)
Record env := Env {
  sales_reply : result (list Sale);   (* self.odoo.get_daily_sales(today) *)
  quote_reply : result response;      (* requests.get of the quote service *)
  sheet_clock : datetime;             (* datetime.now() in add_daily_sheet *)
  mail_clock : datetime;              (* datetime.today() in send_report *)
  save_failure : option exn;          (* workbook.save cannot open its target *)
  smtp_failure : option exn           (* an error of the SMTP session *)
}.

(** The state a run works on: the report object in memory, the files, the
    log and the mail that left. *)
Record state := State {
  excel : SalesReportExcel;
  files : file_system;
  log : logger;
  outbox : list mail
}.

(** A step may change the state and may raise. *)
Definition M (A : Type) : Type := state → result A * state.

Definition ret {A} (a : A) : M A := λ st, (Ok a, st).

Definition raise {A} (e : exn) : M A := λ st, (Raise e, st).

Definition bindM {A B} (m : M A) (k : A → M B) : M B :=
  λ st, match m st with
        | (Ok a, st') => k a st'
        | (Raise e, st') => (Raise e, st')
        end.

Notation "'let*' x := m 'in' k" := (bindM m (λ x, k))
  (at level 10, x name, m at level 99, k at level 200).
Notation "'exec' m ;; k" := (bindM m (λ _, k))
  (at level 10, m at level 99, k at level 200).

Definition try_except {A} (body : M A) (handler : exn → M A) : M A :=
  λ st, match body st with
        | (Ok a, st') => (Ok a, st')
        | (Raise e, st') => handler e st'
        end.

Definition logging (lv : level) (msg : string) : M unit :=
  λ st, (Ok tt, State (excel st) (files st) (log st ++ [(lv, msg)]) (outbox st)).

Definition get_daily_sales (e : env) : M (list Sale) :=
  λ st, (sales_reply e, st).

Definition call_get_historical_rate (e : env) : M json :=
  λ st, let '(r, lines) := get_historical_rate (quote_reply e) in
        (r, State (excel st) (files st) (log st ++ lines) (outbox st)).

Definition call_add_daily_sheet (e : env) (data : list Sale) (usd_rate : json) : M unit :=
  λ st, match add_daily_sheet (sheet_clock e) data usd_rate (workbook_of (excel st)) with
        | Ok wb => (Ok tt, State (mkExcel (file_path (excel st)) wb) (files st) (log st) (outbox st))
        | Raise ex => (Raise ex, st)
        end.

(** [SalesReportExcel.save]. The failure the model knows is that of opening
    the target (a missing directory, no permission), which leaves the files
    as they are; a write that breaks off after the target was opened is
    outside the model. *)
Definition save (e : env) : M unit :=
  λ st, match save_failure e with
        | Some ex => (Raise ex, st)
        | None =>
            (Ok tt, State (excel st)
                      (<[file_path (excel st) := workbook_of (excel st)]> (files st))
                      (log st) (outbox st))
        end.

(** [EmailNotifier.send_report]: the file is read, then its [name] is asked
    for when the attachment header is made, then the mail is sent. *)
Definition send_report (e : env) (cfg : smtp_config) (to : string) (attachment_path : attachment)
  : M unit :=
  λ st,
    let subj := "Reporte Ventas " +:+ strftime (mail_clock e) in
    match files st !! path_of attachment_path with
    | None => (Raise (FileNotFoundError (path_of attachment_path)), st)
    | Some content =>
        match attachment_path with
        | StrPath _ => (Raise (AttributeError "'str' object has no attribute 'name'"), st)
        | PathObject _ name =>
            match smtp_failure e with
            | Some ex => (Raise ex, st)
            | None =>
                (Ok tt, State (excel st) (files st) (log st)
                          (outbox st ++ [Mail (user cfg) to subj name content]))
            end
        end
    end.

Definition REPORT_PATH : string := "/reports/daily_sales.xlsx".

Definition SMTP_CONFIG : smtp_config := SmtpConfig "smtp.gmail.com" 587 "bot@empresa.com" "password".

(** [DailySalesReport.generate_report] *)
Definition generate_report (e : env) : M unit :=
  try_except
    (let* sales_data := get_daily_sales e in
     let* usd_rate := call_get_historical_rate e in
     match sales_data with
     | [] => logging WARNING "No hay ventas para reportar hoy"
     | _ :: _ =>
         exec call_add_daily_sheet e sales_data usd_rate ;;
         exec save e ;;
         λ st, send_report e SMTP_CONFIG "finanzas@empresa.com" (StrPath (file_path (excel st))) st
     end)
    (λ ex, exec logging ERROR ("Error generando reporte: " +:+ str_exn ex) ;; raise ex).

(** What outlives a process. *)
Record world := World {
  w_files : file_system;
  w_log : logger;
  w_outbox : list mail
}.

(** One run of the script: build the report object, then generate. *)
Definition main (e : env) (w : world) : result unit * world :=
  match SalesReportExcel_init REPORT_PATH (w_files w) with
  | Ok xl =>
      let '(r, st) := generate_report e (State xl (w_files w) (w_log w) (w_outbox w)) in
      (r, World (files st) (log st) (outbox st))
  | Raise ex => (Raise ex, w)
  end.

(** The runs of a list of days, one after the other. *)
Definition runs (es : list env) (w : world) : world :=
  foldl (λ w e, snd (main e w)) w es.

Definition no_files : world := World ∅ [] [].

Definition report_sheets (w : world) : list worksheet :=
  match w_files w !! REPORT_PATH with
  | Some wb => sheets wb
  | None => []
  end.

(** ** Definitions used to state the facts *)

Fixpoint all_chars (P : ascii → bool) (s : string) : bool :=
  match s with
  | EmptyString => true
  | String c s' => P c && all_chars P s'
  end.

Definition date_char (c : ascii) : bool := is_digit c || Ascii.eqb c "-".

(** The row written for a sale when the sheet's last row is [r]. *)
Definition row_of_sale (usd_rate : json) (r : nat) (sale : Sale) : list scalar :=
  [ client sale; products sale; amount sale; date sale;
    SStr ("=C" +:+ str_nat r +:+ "*" +:+ str_json usd_rate);
    SStr EmptyString; SStr EmptyString ].

(** Rows 1 to [n] are appended rows of seven cells, and there is no other
    cell. *)
Definition filled (n : nat) (w : worksheet) : Prop :=
  current_row w = n ∧
  ∀ r c : nat, is_Some (cells w !! (r, c)) ↔ (1 ≤ r ≤ n ∧ 1 ≤ c ≤ 7).

(** The summary cells and the borders, for a sheet that counted [days]. *)
Definition finish (days : nat) (w : worksheet) : worksheet :=
  let w1 := set_value (2, 6) (SStr ("=E2/" +:+ str_nat days)) w in
  let w2 := set_value (2, 7) (SStr ("=SUM(E2:E" +:+ str_nat (max_row w) +:+ ")")) w1 in
  foldl (set_border ThickBorder) w2 (iter_rows 2 w2).

Definition data_sheet (t : string) (usd_rate : json) (data : list Sale) : worksheet :=
  foldl (append_sale usd_rate) (append HEADER (blank_sheet t)) data.

(** The title [create_sheet] settles on for the sheet of a clock reading. *)
Definition sheet_title (wb : workbook) (now : datetime) : string :=
  avoid_duplicate_name (sheetnames wb) (strftime now).

(** The sheet the call leaves at the end of the workbook. *)
Definition built_sheet (wb : workbook) (now : datetime) (usd_rate : json) (data : list Sale)
  : worksheet :=
  let t := sheet_title wb now in
  finish (length (filter (λ s, s ≠ t) (sheetnames wb))) (data_sheet t usd_rate data).

(** A title made from the date of a clock reading: the date itself or, when
    a sheet of that name was there, the date followed by a number. *)
Definition date_titled (now : datetime) (t : string) : Prop :=
  t = strftime now ∨ ∃ n : nat, t = strftime now +:+ str_nat n.

(** The value and the log lines of a rate lookup. *)
Definition rate_value (reply : result response) : json :=
  match fst (get_historical_rate reply) with
  | Ok v => v
  | Raise _ => JScalar SNone
  end.

Definition rate_log (reply : result response) : logger := snd (get_historical_rate reply).

(** The workbook in memory once a run with sales [data] has added its sheet. *)
Definition rendered (e : env) (data : list Sale) (wb : workbook) : workbook :=
  Workbook (sheets wb ++ [built_sheet wb (sheet_clock e) (rate_value (quote_reply e)) data])
           (active_sheet_index wb).

Definition NO_NAME : exn := AttributeError "'str' object has no attribute 'name'".

(** A day on which the backend has no sale to report. *)
Definition quiet_day : env :=
  Env (Ok []) (Ok (Response (Ok (JDict [("oficial", JDict [("value_avg", JScalar (SInt 1000))])]))))
      jan1 jan1 None None.

Definition busy_day (now : datetime) : env :=
  Env (Ok [a_sale]) (Ok (Response (Ok (JDict [("oficial", JDict [("value_avg", JScalar (SInt 1000))])]))))
      now now None None.

(** The same day when the quote service cannot be reached. *)
Definition no_quote_day : env :=
  Env (Ok [a_sale]) (Raise (OtherError "ConnectionError" "connection refused")) jan1 jan1 None None.

Definition empty_state : state := State (mkExcel REPORT_PATH no_sheets) ∅ [] [].

(** The workbook the report object starts a run with. *)
Definition loaded_workbook (w : world) : workbook :=
  match w_files w !! REPORT_PATH with
  | Some wb => wb
  | None => Workbook [] 0
  end.

(** The length of a text up to and with its first comma. *)
Fixpoint comma_bound (s : string) : nat :=
  match s with
  | EmptyString => 0
  | String c s' => if Ascii.eqb c "," then 1 else S (comma_bound s')
  end.

Definition b_sale : Sale := mkSale (SStr "B") (SStr "Y") (SInt 200) (SStr "2024-01-02").

(** A workbook that already holds the sheet of January 1st. *)
Definition one_sheet : workbook :=
  Workbook [built_sheet no_sheets jan1 (JScalar (SInt 1000)) [a_sale]] 0.

(** The state the script hands to [generate_report]. *)
Definition start_state (w : world) : state :=
  State (mkExcel REPORT_PATH (loaded_workbook w)) (w_files w) (w_log w) (w_outbox w).

(** The same run with another outcome of the quote request. *)
Definition with_quote (e : env) (reply : result response) : env :=
  Env (sales_reply e) reply (sheet_clock e) (mail_clock e) (save_failure e) (smtp_failure e).

(** *** OdooSalesData *)

(** [get_daily_sales] on the outcome of its GET request: the entry [sales]
    of the decoded body. No handler stands around it. *)
Definition OdooSalesData_get_daily_sales (reply : result response) : result json :=
  bind reply (λ response,
  bind (json_body response) (λ doc,
  getitem doc "sales")).

(** ** Definitions used to state the further properties *)

Definition border_at (k : coord) (w : worksheet) : option border := cell_border <$> cells w !! k.

(** A run that adds a sheet to the report file: it had sales and its write
    went through. *)
Definition renders (e : env) : bool :=
  match sales_reply e, save_failure e with
  | Ok (_ :: _), None => true
  | _, _ => false
  end.

Definition error_line (ex : exn) : level * string :=
  (ERROR, "Error generando reporte: " +:+ str_exn ex).

(** A day on which the report file cannot be opened for writing. *)
Definition NO_PERMISSION : exn :=
  OtherError "PermissionError" "[Errno 13] Permission denied: '/reports/daily_sales.xlsx'".

Definition locked_file_day : env :=
  Env (Ok [a_sale]) (Ok (Response (Ok (JDict [("oficial", JDict [("value_avg", JScalar (SInt 1000))])]))))
      jan1 jan1 (Some NO_PERMISSION) None.

(** A day on which the sales backend cannot be reached. *)
Definition backend_down_day : env :=
  Env (Raise (OtherError "ConnectionError" "connection refused"))
      (Raise (OtherError "ConnectionError" "connection refused")) jan1 jan1 None None.

Definition sales_of (e : env) : list Sale :=
  match sales_reply e with
  | Ok data => data
  | Raise _ => []
  end.

(** The dates of the runs that add a sheet, in the order of the runs. *)
Definition render_dates (es : list env) : list datetime :=
  sheet_clock <$> filter (λ e, renders e) es.

(** A day on which the quote service answers with a float. *)
Definition float_rate_day : env :=
  Env (Ok [a_sale; b_sale])
      (Ok (Response (Ok (JDict [("oficial", JDict [("value_avg", JScalar (SFloat "1015.5"))])]))))
      jan2 jan2 None None.

(** * Facts *)

(** ** Sample evaluations *)

Example str_nat_12 : str_nat 12 = "12".
Proof. reflexivity. Qed.

Example str_Z_neg : str_Z (-305) = "-305".
Proof. reflexivity. Qed.

Example repr_json_ex :
  str_json (JDict [("a", JList [JScalar (SInt 1); JScalar (SStr "xy"); JScalar SNone])])
  = "{'a': [1, 'xy', None]}".
Proof. reflexivity. Qed.

Example coordinate_F2 : coordinate_from_string "F2" = Some (2, 6).
Proof. reflexivity. Qed.

Example coordinate_AB10 : coordinate_from_string "AB10" = Some (10, 28).
Proof. reflexivity. Qed.

Example avoid_dup_1 : avoid_duplicate_name ["2024-01-01"; "Sheet"] "2024-01-01" = "2024-01-011".
Proof. reflexivity. Qed.

Example avoid_dup_2 : avoid_duplicate_name ["a"; "A1"; "b"; "a7"] "A" = "A8".
Proof. vm_compute. reflexivity. Qed.

Example max_row_blank : max_row (blank_sheet "x") = 1.
Proof. reflexivity. Qed.

Example max_row_after : max_row (append [SNone; SNone] (append [SInt 1] (blank_sheet "x"))) = 2.
Proof. vm_compute. reflexivity. Qed.

Example strftime_jan1 : strftime jan1 = "2024-01-01".
Proof. reflexivity. Qed.

Example scenario_E2 :
  (new_sheet (add_daily_sheet jan1 [a_sale] (JScalar (SInt 1000)) no_sheets)) ≫= value_at (2, 5)
  = Some (SStr "=C1*1000").
Proof. vm_compute. reflexivity. Qed.

(** ** Facts about the worksheet model *)

Section worksheet_facts.
Implicit Types (w : worksheet) (m : gmap coord cell) (k : coord).

Lemma put_row_lookup (r c : nat) vs m (r2 c2 : nat) :
  put_row r c vs m !! (r2, c2) =
    if decide (r2 = r ∧ c ≤ c2 < c + length vs)
    then (λ v, Cell v NoBorder) <$> vs !! (c2 - c)
    else m !! (r2, c2).
Proof.
  revert c m. induction vs as [|v vs IH]; intros c m; simpl.
  - case_decide; [lia | done].
  - rewrite IH.
    destruct (decide (r2 = r ∧ S c ≤ c2 < S c + length vs)) as [H1|H1];
      destruct (decide (r2 = r ∧ c ≤ c2 < c + S (length vs))) as [H2|H2]; try lia.
    + replace (c2 - c) with (S (c2 - S c)) by lia. done.
    + assert (c2 = c) as -> by lia. destruct H2 as [-> _].
      rewrite lookup_insert_eq. by replace (c - c) with 0 by lia.
    + rewrite lookup_insert_ne; [done|]. intros [= -> ->]. lia.
Qed.

Lemma row_indices_elem w (r : nat) :
  r ∈ row_indices w ↔ ∃ c, is_Some (cells w !! (r, c)).
Proof.
  unfold row_indices. rewrite list_elem_of_fmap. split.
  - intros [[[r2 c] x] [-> Hin]]. apply elem_of_map_to_list in Hin. by exists c, x.
  - intros [c [x Hx]]. exists ((r, c), x). split; [done|]. by apply elem_of_map_to_list.
Qed.

Lemma column_indices_elem w (c : nat) :
  c ∈ column_indices w ↔ ∃ r, is_Some (cells w !! (r, c)).
Proof.
  unfold column_indices. rewrite list_elem_of_fmap. split.
  - intros [[[r c2] x] [-> Hin]]. apply elem_of_map_to_list in Hin. by exists r, x.
  - intros [r [x Hx]]. exists ((r, c), x). split; [done|]. by apply elem_of_map_to_list.
Qed.

Lemma max_list_unique (l : list nat) (n : nat) :
  n ∈ l → (∀ x, x ∈ l → x ≤ n) → max_list l = n.
Proof.
  intros Hin Hle. apply Nat.le_antisymm.
  - apply Hle, max_list_elem_of. by intros ->; apply not_elem_of_nil in Hin.
  - by apply max_list_elem_of_le.
Qed.

Lemma max_row_unique w (n : nat) :
  (∃ c, is_Some (cells w !! (n, c))) →
  (∀ r c, is_Some (cells w !! (r, c)) → r ≤ n) →
  max_row w = n.
Proof.
  intros Hn Hle. unfold max_row.
  assert (n ∈ row_indices w) as Hin by by apply row_indices_elem.
  assert (max_list (row_indices w) = n) as Hmax.
  { apply max_list_unique; [done|]. intros x [c Hc]%row_indices_elem. eauto. }
  destruct (row_indices w); [by apply not_elem_of_nil in Hin | done].
Qed.

Lemma max_column_unique w (n : nat) :
  (∃ r, is_Some (cells w !! (r, n))) →
  (∀ r c, is_Some (cells w !! (r, c)) → c ≤ n) →
  max_column w = n.
Proof.
  intros Hn Hle. unfold max_column.
  assert (n ∈ column_indices w) as Hin by by apply column_indices_elem.
  assert (max_list (column_indices w) = n) as Hmax.
  { apply max_list_unique; [done|]. intros x [c Hc]%column_indices_elem. eauto. }
  destruct (column_indices w); [by apply not_elem_of_nil in Hin | done].
Qed.

(** [set_value] and [set_border] touch one coordinate. *)
Lemma title_get_cell k w : title (get_cell k w) = title w.
Proof. unfold get_cell. by destruct (cells w !! k). Qed.

Lemma get_cell_lookup k w k2 :
  cells (get_cell k w) !! k2 =
    if decide (k2 = k) then Some (default (Cell SNone NoBorder) (cells w !! k)) else cells w !! k2.
Proof.
  unfold get_cell. destruct (cells w !! k) as [x|] eqn:E; simpl.
  - case_decide; by subst.
  - case_decide; subst; [by rewrite lookup_insert_eq | by rewrite lookup_insert_ne].
Qed.

Lemma value_at_set_value k v w k2 :
  value_at k2 (set_value k v w) = if decide (k2 = k) then Some v else value_at k2 w.
Proof.
  unfold value_at, set_value. simpl. destruct (decide (k2 = k)) as [->|Hne].
  - rewrite lookup_alter_eq, get_cell_lookup. by case_decide.
  - rewrite lookup_alter_ne, get_cell_lookup by done. by case_decide.
Qed.

Lemma value_at_set_border b k w k2 :
  value_at k2 (set_border b w k) =
    if decide (k2 = k) then Some (default SNone (value_at k w)) else value_at k2 w.
Proof.
  unfold value_at, set_border. simpl. destruct (decide (k2 = k)) as [->|Hne].
  - rewrite lookup_alter_eq, get_cell_lookup. case_decide; [|done].
    simpl. by destruct (cells w !! k).
  - rewrite lookup_alter_ne, get_cell_lookup by done. by case_decide.
Qed.

Lemma value_at_set_border_Some b k w k2 v :
  value_at k2 w = Some v → value_at k2 (set_border b w k) = Some v.
Proof.
  intros H. rewrite value_at_set_border. case_decide; subst; [by rewrite H | done].
Qed.

Lemma value_at_borders_Some b ks w k2 v :
  value_at k2 w = Some v → value_at k2 (foldl (set_border b) w ks) = Some v.
Proof.
  revert w. induction ks as [|k ks IH]; intros w H; simpl; [done|].
  by apply IH, value_at_set_border_Some.
Qed.

Lemma value_at_borders_other b ks w k2 :
  k2 ∉ ks → value_at k2 (foldl (set_border b) w ks) = value_at k2 w.
Proof.
  revert w. induction ks as [|k ks IH]; intros w H; simpl; [done|].
  apply not_elem_of_cons in H as [? ?].
  rewrite IH by done. rewrite value_at_set_border. by case_decide.
Qed.

Lemma value_at_borders b ks w k2 :
  value_at k2 (foldl (set_border b) w ks) =
    if decide (k2 ∈ ks) then Some (default SNone (value_at k2 w)) else value_at k2 w.
Proof.
  case_decide as Hin; [|by apply value_at_borders_other].
  destruct (value_at k2 w) as [v|] eqn:E; simpl.
  { by apply value_at_borders_Some. }
  revert w E. induction ks as [|k ks IH]; intros w E; [by apply not_elem_of_nil in Hin|].
  simpl. destruct (decide (k2 = k)) as [->|Hne].
  - apply value_at_borders_Some. rewrite value_at_set_border, E. by case_decide.
  - apply IH.
    + apply elem_of_cons in Hin as [|]; done.
    + rewrite value_at_set_border. by case_decide.
Qed.

Lemma title_set_value k v w : title (set_value k v w) = title w.
Proof. unfold set_value. simpl. apply title_get_cell. Qed.

Lemma title_borders b ks w : title (foldl (set_border b) w ks) = title w.
Proof.
  revert w. induction ks as [|k ks IH]; intros w; simpl; [done|].
  rewrite IH. unfold set_border. simpl. apply title_get_cell.
Qed.

Lemma iter_rows_elem (min : nat) w (r c : nat) :
  (r, c) ∈ iter_rows min w ↔ (min ≤ r ≤ max_row w) ∧ (1 ≤ c ≤ max_column w).
Proof.
  unfold iter_rows. rewrite list_elem_of_bind. split.
  - intros [r2 [Hc Hr]]. apply elem_of_seq in Hr.
    apply list_elem_of_bind in Hc as [c2 [Heq Hc]]. apply elem_of_seq in Hc.
    apply list_elem_of_singleton in Heq as [= -> ->]. lia.
  - intros [Hr Hc]. exists r. split; [|apply elem_of_seq; lia].
    apply list_elem_of_bind. exists c. split; [by apply list_elem_of_singleton|].
    apply elem_of_seq. lia.
Qed.
End worksheet_facts.

(** ** Text produced by the formatting functions *)

Section text_facts.
Implicit Types (s : string) (c : ascii) (P : ascii → bool).

Lemma all_chars_app P s1 s2 :
  all_chars P (s1 +:+ s2) = all_chars P s1 && all_chars P s2.
Proof. induction s1 as [|c s1 IH]; simpl; [done|]. by rewrite IH, andb_assoc. Qed.

Lemma all_chars_weaken P Q s :
  (∀ c, P c = true → Q c = true) → all_chars P s = true → all_chars Q s = true.
Proof.
  intros HPQ. induction s as [|c s IH]; simpl; [done|].
  intros [Hc Hs]%andb_prop. by rewrite (HPQ c Hc), IH.
Qed.

Lemma has_char_all_chars P c s :
  all_chars P s = true → P c = false → has_char c s = false.
Proof.
  intros Hs Hc. induction s as [|c2 s IH]; simpl in *; [done|].
  apply andb_prop in Hs as [Hc2 Hs].
  destruct (Ascii.eqb_spec c c2) as [->|_]; [congruence | auto].
Qed.

Lemma string_length_app s1 s2 :
  String.length (s1 +:+ s2) = String.length s1 + String.length s2.
Proof. induction s1 as [|c s1 IH]; simpl; [done|]. by rewrite IH. Qed.

Lemma digits_string_of_uint d : all_chars is_digit (NilEmpty.string_of_uint d) = true.
Proof. induction d; simpl; try done; by rewrite IHd. Qed.

Lemma digits_str_nat (n : nat) : all_chars is_digit (str_nat n) = true.
Proof.
  unfold str_nat, NilZero.string_of_uint.
  destruct (Nat.to_uint n); try done; apply digits_string_of_uint.
Qed.

Lemma digits_zeros (n : nat) : all_chars is_digit (zeros n) = true.
Proof. induction n; simpl; done. Qed.

Lemma digits_zero_pad (width n : nat) : all_chars is_digit (zero_pad width n) = true.
Proof. unfold zero_pad. by rewrite all_chars_app, digits_zeros, digits_str_nat. Qed.

Lemma date_chars_strftime d : all_chars date_char (strftime d) = true.
Proof.
  assert (∀ w n, all_chars date_char (zero_pad w n) = true) as Hpad.
  { intros w n. apply (all_chars_weaken is_digit); [|apply digits_zero_pad].
    intros c Hc. unfold date_char. by rewrite Hc. }
  unfold strftime. by rewrite !all_chars_app, !Hpad.
Qed.

Lemma strftime_not_empty d : strftime d ≠ EmptyString.
Proof.
  intros H. apply (f_equal String.length) in H.
  unfold strftime in H. rewrite !string_length_app in H. simpl in H. lia.
Qed.

Lemma strftime_valid_title d : invalid_title (strftime d) = false.
Proof.
  pose proof (date_chars_strftime d) as H.
  unfold invalid_title, INVALID_TITLE_CHARS. simpl.
  by rewrite !(has_char_all_chars date_char _ _ H).
Qed.
Lemma has_char_app c s1 s2 : has_char c (s1 +:+ s2) = has_char c s1 || has_char c s2.
Proof.
  induction s1 as [|a s1 IH]; simpl; [done|]. by destruct (Ascii.eqb c a).
Qed.

Lemma has_char_str_nat c (n : nat) : is_digit c = false → has_char c (str_nat n) = false.
Proof. apply has_char_all_chars, digits_str_nat. Qed.
End text_facts.

(** ** The sheet [add_daily_sheet] builds *)

Section sheet_facts.
Implicit Types (w : worksheet) (data : list Sale) (usd_rate : json).

Lemma filled_max_row (n : nat) w : filled n w → 1 ≤ n → max_row w = n.
Proof.
  intros [_ Hdom] Hn. apply max_row_unique.
  - exists 1. apply Hdom. lia.
  - intros r c Hrc. apply Hdom in Hrc. lia.
Qed.

Lemma filled_max_column (n : nat) w : filled n w → 1 ≤ n → max_column w = 7.
Proof.
  intros [_ Hdom] Hn. apply max_column_unique.
  - exists 1. apply Hdom. lia.
  - intros r c Hrc. apply Hdom in Hrc. lia.
Qed.

Lemma value_at_append (row : list scalar) w (r c : nat) :
  value_at (r, c) (append row w) =
    if decide (r = S (current_row w) ∧ 1 ≤ c < 1 + length row)
    then row !! (c - 1) else value_at (r, c) w.
Proof.
  unfold value_at, append. cbn [cells]. rewrite put_row_lookup.
  case_decide; [|done]. by destruct (row !! (c - 1)).
Qed.

Lemma filled_append (row : list scalar) (n : nat) w :
  length row = 7 → filled n w → filled (S n) (append row w).
Proof.
  intros Hlen [Hcur Hdom]. split; [simpl; by rewrite Hcur|].
  intros r c. unfold append. simpl. rewrite put_row_lookup, Hcur, Hlen.
  case_decide as Hd.
  - destruct Hd as [-> Hc]. split; [lia|]. intros _.
    destruct (lookup_lt_is_Some_2 row (c - 1)) as [v ->]; [lia|]. by eexists.
  - rewrite Hdom. lia.
Qed.

Lemma filled_header t : filled 1 (append HEADER (blank_sheet t)).
Proof.
  apply filled_append; [done|]. split; [done|].
  intros r c. simpl. rewrite lookup_empty. split; [by intros [? ?] | lia].
Qed.

(** The loop over the sales. *)
Lemma rows_spec usd_rate data (n : nat) w :
  filled n w → 1 ≤ n →
  let w2 := foldl (append_sale usd_rate) w data in
  filled (n + length data) w2 ∧ title w2 = title w ∧
  (∀ (k : nat) sale (c : nat), data !! k = Some sale → 1 ≤ c ≤ 7 →
     value_at (n + 1 + k, c) w2 = row_of_sale usd_rate (n + k) sale !! (c - 1)) ∧
  (∀ r c : nat, r ≤ n → value_at (r, c) w2 = value_at (r, c) w).
Proof.
  revert n w. induction data as [|s data IH]; intros n w Hf Hn; simpl.
  - rewrite Nat.add_0_r. split_and!; [done|done| |done]. intros k sale c Hk. done.
  - assert (filled (S n) (append_sale usd_rate w s)) as Hf2.
    { by apply filled_append. }
    destruct (IH (S n) _ Hf2 ltac:(lia)) as (Hfill & Htitle & Hrows & Hold).
    assert (current_row w = n) as Hcur by apply Hf.
    split_and!.
    + by replace (n + S (length data)) with (S n + length data) by lia.
    + by rewrite Htitle.
    + intros [|k] sale c Hk Hc; simpl in Hk.
      * injection Hk as ->. rewrite !Nat.add_0_r, Hold by lia.
        unfold append_sale. rewrite value_at_append, Hcur.
        change (length (sale_row usd_rate w sale)) with 7.
        case_decide; [|lia]. unfold sale_row, row_of_sale.
        by rewrite (filled_max_row n w).
      * replace (n + 1 + S k) with (S n + 1 + k) by lia.
        replace (n + S k) with (S n + k) by lia. by apply Hrows.
    + intros r c Hr. rewrite Hold by lia.
      unfold append_sale. rewrite value_at_append, Hcur. case_decide; [lia|done].
Qed.

Lemma data_sheet_spec t usd_rate data :
  let w := data_sheet t usd_rate data in
  filled (1 + length data) w ∧ title w = t ∧ max_row w = 1 + length data ∧
  (∀ (k : nat) sale (c : nat), data !! k = Some sale → 1 ≤ c ≤ 7 →
     value_at (2 + k, c) w = row_of_sale usd_rate (1 + k) sale !! (c - 1)) ∧
  (∀ c : nat, 1 ≤ c ≤ 7 → value_at (1, c) w = HEADER !! (c - 1)).
Proof.
  destruct (rows_spec usd_rate data 1 _ (filled_header t) ltac:(lia))
    as (Hfill & Htitle & Hrows & Hold).
  split_and!; [done|done| |done|].
  - apply filled_max_row; [done|lia].
  - intros c Hc. unfold data_sheet. rewrite Hold by lia.
    rewrite value_at_append. simpl. case_decide; [done|lia].
Qed.
End sheet_facts.

(** ** The workbook after [add_daily_sheet] *)

Section workbook_facts.
Implicit Types (w : worksheet) (wb : workbook) (data : list Sale) (usd_rate : json).

Lemma alter_last {A} (f : A → A) (l : list A) (x : A) :
  alter f (length l) (l ++ [x]) = l ++ [f x].
Proof.
  replace (length l) with (length l + 0) by lia. by rewrite alter_app_r.
Qed.

Lemma insert_last {A} (l : list A) (x y : A) :
  <[length l := y]> (l ++ [x]) = l ++ [y].
Proof.
  replace (length l) with (length l + 0) by lia. by rewrite insert_app_r.
Qed.

Lemma lookup_last {A} (l : list A) (x : A) : (l ++ [x]) !! length l = Some x.
Proof. by rewrite lookup_app_r, Nat.sub_diag. Qed.

Lemma with_sheet_last (f : worksheet → worksheet) l w (a : nat) :
  with_sheet (length l) f (Workbook (l ++ [w]) a) = Workbook (l ++ [f w]) a.
Proof. unfold with_sheet. simpl. by rewrite alter_last. Qed.

Lemma foldl_with_sheet_last {B} (f : worksheet → B → worksheet) l (a : nat) (xs : list B) w :
  foldl (λ wb x, with_sheet (length l) (λ w, f w x) wb) (Workbook (l ++ [w]) a) xs
  = Workbook (l ++ [foldl f w xs]) a.
Proof.
  revert w. induction xs as [|x xs IH]; intros w; simpl; [done|].
  by rewrite with_sheet_last, IH.
Qed.

Lemma setitem_F2 v w : setitem "F2" v w = Ok (set_value (2, 6) v w).
Proof. reflexivity. Qed.

Lemma setitem_G2 v w : setitem "G2" v w = Ok (set_value (2, 7) v w).
Proof. reflexivity. Qed.

Lemma title_finish (days : nat) w : title (finish days w) = title w.
Proof. unfold finish. by rewrite title_borders, !title_set_value. Qed.

Lemma days_count_last l w (a : nat) :
  days_count_of (Workbook (l ++ [w]) a) w
  = length (filter (λ s, s ≠ title w) (title <$> l)).
Proof.
  unfold days_count_of, sheetnames. simpl.
  rewrite fmap_app, filter_app, length_app. simpl.
  rewrite filter_cons_False, filter_nil by (intros H; by apply H). simpl. lia.
Qed.

Lemma calculate_financials_last usd_rate l w (a : nat) :
  _calculate_financials (length l) usd_rate (Workbook (l ++ [w]) a)
  = Ok (Workbook (l ++ [finish (length (filter (λ s, s ≠ title w) (title <$> l))) w]) a).
Proof.
  unfold _calculate_financials, sheet_at. cbn [sheets active_sheet_index].
  rewrite lookup_last. cbn [bind].
  rewrite setitem_F2. cbn [bind]. rewrite setitem_G2. cbn [bind].
  rewrite insert_last, days_count_last. reflexivity.
Qed.

Lemma add_daily_sheet_eq now data usd_rate wb :
  add_daily_sheet now data usd_rate wb
  = Ok (Workbook (sheets wb ++ [built_sheet wb now usd_rate data]) (active_sheet_index wb)).
Proof.
  unfold add_daily_sheet, create_sheet.
  destruct (decide (strftime now = EmptyString)) as [H|_];
    [by apply strftime_not_empty in H|].
  rewrite strftime_valid_title. cbn [bind].
  rewrite with_sheet_last, foldl_with_sheet_last, calculate_financials_last.
  unfold built_sheet, sheet_title, data_sheet.
  pose proof (data_sheet_spec (avoid_duplicate_name (sheetnames wb) (strftime now)) usd_rate data)
    as (_ & Ht & _). unfold data_sheet in Ht. by rewrite Ht.
Qed.

(** The cells of the finished sheet. *)
Lemma finish_F2 (days : nat) w :
  value_at (2, 6) (finish days w) = Some (SStr ("=E2/" +:+ str_nat days)).
Proof.
  unfold finish. apply value_at_borders_Some.
  rewrite value_at_set_value. case_decide; [done|].
  rewrite value_at_set_value. by case_decide.
Qed.

Lemma finish_G2 (days : nat) w :
  value_at (2, 7) (finish days w)
  = Some (SStr ("=SUM(E2:E" +:+ str_nat (max_row w) +:+ ")")).
Proof.
  unfold finish. apply value_at_borders_Some.
  rewrite value_at_set_value. by case_decide.
Qed.

Lemma finish_keeps (days : nat) w k v :
  k ≠ (2, 6) → k ≠ (2, 7) → value_at k w = Some v → value_at k (finish days w) = Some v.
Proof.
  intros H6 H7 Hv. unfold finish. apply value_at_borders_Some.
  rewrite value_at_set_value. case_decide; [done|].
  rewrite value_at_set_value. by case_decide.
Qed.
End workbook_facts.

(** ** Numbers in formula text *)

Section number_text.
Implicit Types (s t : string) (c : ascii).

Lemma int_of_digits_str_nat (n : nat) : int_of_digits (str_nat n) = n.
Proof.
  unfold int_of_digits, str_nat, NilZero.string_of_uint.
  pose proof (DecimalNat.Unsigned.of_to n) as Hn.
  destruct (Nat.to_uint n) eqn:E; try (rewrite NilEmpty.usu; exact Hn).
  simpl. simpl in Hn. done.
Qed.

Lemma str_nat_inj (a b : nat) : str_nat a = str_nat b → a = b.
Proof.
  intros H. apply (f_equal int_of_digits) in H. by rewrite !int_of_digits_str_nat in H.
Qed.

(** Digits end where the first other character stands. *)
Lemma digits_prefix_unique s1 s2 c t1 t2 :
  all_chars is_digit s1 = true → all_chars is_digit s2 = true → is_digit c = false →
  s1 +:+ String c t1 = s2 +:+ String c t2 → s1 = s2.
Proof.
  intros H1 H2 Hc. revert s2 H2.
  induction s1 as [|a s1 IH]; intros [|b s2] H2 Heq; simpl in *; try done.
  - injection Heq as <- _. apply andb_prop in H2 as [Hb _]. congruence.
  - injection Heq as -> _. apply andb_prop in H1 as [Ha _]. congruence.
  - apply andb_prop in H1 as [_ H1]. apply andb_prop in H2 as [_ H2].
    injection Heq as -> Heq. f_equal. by apply IH.
Qed.

Lemma amount_formula_inj (a b : nat) t :
  "=C" +:+ str_nat a +:+ "*" +:+ t = "=C" +:+ str_nat b +:+ "*" +:+ t → a = b.
Proof.
  intros H. simpl in H. injection H as H.
  apply str_nat_inj.
  by apply (digits_prefix_unique _ _ "*" t t); [apply digits_str_nat..| |].
Qed.
End number_text.

(** ** The cells of the new sheet *)

Section new_sheet_facts.
Implicit Types (w : worksheet) (wb : workbook) (data : list Sale) (usd_rate : json).

Lemma new_sheet_add_daily_sheet now data usd_rate wb :
  new_sheet (add_daily_sheet now data usd_rate wb) = Some (built_sheet wb now usd_rate data).
Proof. rewrite add_daily_sheet_eq. unfold new_sheet. cbn [sheets]. apply last_snoc. Qed.

Lemma built_sheet_header wb now usd_rate data (c : nat) :
  1 ≤ c ≤ 7 → value_at (1, c) (built_sheet wb now usd_rate data) = HEADER !! (c - 1).
Proof.
  intros Hc. unfold built_sheet.
  destruct (data_sheet_spec (sheet_title wb now) usd_rate data) as (_ & _ & _ & _ & Hhead).
  specialize (Hhead c Hc).
  destruct (lookup_lt_is_Some_2 HEADER (c - 1)) as [v Hv]; [simpl; lia|].
  rewrite Hv in Hhead |- *.
  apply finish_keeps; [intros [= ? ?]; lia | intros [= ? ?]; lia | done].
Qed.

Lemma built_sheet_G2 wb now usd_rate data :
  value_at (2, 7) (built_sheet wb now usd_rate data)
  = Some (SStr ("=SUM(E2:E" +:+ str_nat (1 + length data) +:+ ")")).
Proof.
  unfold built_sheet. rewrite finish_G2.
  destruct (data_sheet_spec (sheet_title wb now) usd_rate data) as (_ & _ & -> & _). done.
Qed.

Lemma built_sheet_F2 wb now usd_rate data :
  value_at (2, 6) (built_sheet wb now usd_rate data)
  = Some (SStr ("=E2/" +:+ str_nat (length (filter (λ s, s ≠ sheet_title wb now) (sheetnames wb))))).
Proof. unfold built_sheet. by rewrite finish_F2. Qed.

Lemma title_built_sheet wb now usd_rate data :
  title (built_sheet wb now usd_rate data) = sheet_title wb now.
Proof.
  unfold built_sheet. rewrite title_finish.
  by destruct (data_sheet_spec (sheet_title wb now) usd_rate data) as (_ & -> & _).
Qed.
End new_sheet_facts.

(** ** The finished sheet, cell by cell *)

Section finished_sheet.
Implicit Types (w : worksheet) (wb : workbook) (data : list Sale) (usd_rate : json).

Lemma is_Some_value_at k w : is_Some (value_at k w) ↔ is_Some (cells w !! k).
Proof. unfold value_at. apply fmap_is_Some. Qed.

Lemma filled_value_at (n : nat) w (r c : nat) :
  filled n w → is_Some (value_at (r, c) w) ↔ (1 ≤ r ≤ n ∧ 1 ≤ c ≤ 7).
Proof. intros [_ H]. by rewrite is_Some_value_at. Qed.

(** The sheet when the summary cells are in and the borders are not. *)
Lemma summary_cells_bounds (n : nat) w v6 v7 :
  filled n w → 1 ≤ n →
  let w2 := set_value (2, 7) v7 (set_value (2, 6) v6 w) in
  max_row w2 = 2 `max` n ∧ max_column w2 = 7.
Proof.
  intros Hf Hn w2.
  assert (∀ r c : nat, is_Some (cells w2 !! (r, c)) ↔
            (1 ≤ r ≤ n ∧ 1 ≤ c ≤ 7) ∨ (r = 2 ∧ (c = 6 ∨ c = 7))) as Hdom.
  { intros r c. rewrite <- is_Some_value_at. unfold w2.
    rewrite !value_at_set_value.
    case_decide as H7.
    { injection H7 as -> ->. split; [intros _; right; lia | by eexists]. }
    case_decide as H6.
    { injection H6 as -> ->. split; [intros _; right; lia | by eexists]. }
    rewrite (filled_value_at n) by done. split; [by left|].
    intros [?|[-> [->| ->]]]; done. }
  split.
  - apply max_row_unique.
    + destruct (decide (2 ≤ n)).
      * exists 1. apply Hdom. left. lia.
      * exists 6. apply Hdom. right. lia.
    + intros r c Hrc. apply Hdom in Hrc. lia.
  - apply max_column_unique.
    + exists 2. apply Hdom. right. lia.
    + intros r c Hrc. apply Hdom in Hrc. lia.
Qed.

Lemma built_sheet_value wb now usd_rate data (r c : nat) :
  let t := sheet_title wb now in
  let days := length (filter (λ s, s ≠ t) (sheetnames wb)) in
  value_at (r, c) (built_sheet wb now usd_rate data) =
    if decide ((r, c) = (2, 6)) then Some (SStr ("=E2/" +:+ str_nat days))
    else if decide ((r, c) = (2, 7))
         then Some (SStr ("=SUM(E2:E" +:+ str_nat (1 + length data) +:+ ")"))
    else if decide (2 ≤ r ≤ 2 `max` (1 + length data) ∧ 1 ≤ c ≤ 7)
         then Some (default SNone (value_at (r, c) (data_sheet t usd_rate data)))
    else value_at (r, c) (data_sheet t usd_rate data).
Proof.
  intros t days.
  destruct (decide ((r, c) = (2, 6))) as [[= -> ->]|H6]; [apply built_sheet_F2|].
  destruct (decide ((r, c) = (2, 7))) as [[= -> ->]|H7]; [apply built_sheet_G2|].
  destruct (data_sheet_spec t usd_rate data) as (Hf & _ & Hmax & _).
  unfold built_sheet, finish. fold t. fold days.
  rewrite value_at_borders.
  destruct (summary_cells_bounds (1 + length data) (data_sheet t usd_rate data)
              (SStr ("=E2/" +:+ str_nat days))
              (SStr ("=SUM(E2:E" +:+ str_nat (max_row (data_sheet t usd_rate data)) +:+ ")"))
              Hf ltac:(lia)) as [Hr Hc].
  rewrite !value_at_set_value.
  repeat case_decide; try done;
    match goal with
    | H : _ ∈ iter_rows _ _ |- _ => rewrite iter_rows_elem, Hr, Hc in H; lia
    | H : _ ∉ iter_rows _ _ |- _ => rewrite iter_rows_elem, Hr, Hc in H; lia
    end.
Qed.

Lemma built_sheet_row wb now usd_rate data (k : nat) sale (c : nat) :
  data !! k = Some sale → 1 ≤ c ≤ 7 → (k = 0 → c ≤ 5) →
  value_at (2 + k, c) (built_sheet wb now usd_rate data)
  = row_of_sale usd_rate (1 + k) sale !! (c - 1).
Proof.
  intros Hk Hc Hk0. rewrite built_sheet_value.
  destruct (data_sheet_spec (sheet_title wb now) usd_rate data) as (_ & _ & _ & Hrows & _).
  rewrite (Hrows k sale c Hk Hc).
  destruct (lookup_lt_is_Some_2 (row_of_sale usd_rate (1 + k) sale) (c - 1)) as [v Hv];
    [simpl; lia|].
  rewrite Hv. repeat case_decide; try done; simplify_eq; lia.
Qed.

Lemma built_sheet_beyond wb now usd_rate data (r c : nat) :
  1 + length data < r → 2 < r → value_at (r, c) (built_sheet wb now usd_rate data) = None.
Proof.
  intros Hr H2. rewrite built_sheet_value.
  destruct (data_sheet_spec (sheet_title wb now) usd_rate data) as (Hf & _).
  repeat case_decide; simplify_eq; try lia.
  apply eq_None_not_Some. rewrite (filled_value_at _ _ _ _ Hf). lia.
Qed.
End finished_sheet.

(** ** Titles *)

Section titles.
Implicit Types (names : list string) (v : string).

Lemma avoid_duplicate_name_shape names v :
  avoid_duplicate_name names v = v ∨ ∃ n : nat, avoid_duplicate_name names v = v +:+ str_nat n.
Proof.
  unfold avoid_duplicate_name.
  destruct (filter _ names); [by left|].
  destruct (findall_counts v 0 (join "," names)); [by left|]. right. by eexists.
Qed.

Lemma avoid_duplicate_name_unused names v :
  (∀ n, n ∈ names → lower n ≠ lower v) → avoid_duplicate_name names v = v.
Proof.
  intros H. unfold avoid_duplicate_name.
  destruct (filter _ names) as [|n l] eqn:E; [done|].
  assert (n ∈ filter (λ n, lower n = lower v) names) as Hn by (rewrite E; left).
  apply list_elem_of_filter in Hn as [Hl Hn]. by apply H in Hn.
Qed.

Lemma sheet_title_date_titled wb now : date_titled now (sheet_title wb now).
Proof. apply avoid_duplicate_name_shape. Qed.

(** Without a sheet of that date the title is the date. *)
Lemma sheet_title_no_collision wb now :
  (∀ n, n ∈ sheetnames wb → lower n ≠ lower (strftime now)) →
  sheet_title wb now = strftime now.
Proof. apply avoid_duplicate_name_unused. Qed.

Lemma date_titled_chars now t : date_titled now t → all_chars date_char t = true.
Proof.
  intros [->|[n ->]]; [apply date_chars_strftime|].
  rewrite all_chars_app, date_chars_strftime.
  apply (all_chars_weaken is_digit); [|apply digits_str_nat].
  intros c Hc. unfold date_char. by rewrite Hc.
Qed.

Lemma date_titled_not_default now t : date_titled now t → t ≠ "Sheet".
Proof. intros H%date_titled_chars ->. discriminate H. Qed.
End titles.

(** ** The new title is not a title in use *)

Section fresh_title.
Implicit Types (s t value ds : string) (c : ascii) (names : list string).

Lemma append_cons c s t : String c s +:+ t = String c (s +:+ t).
Proof. reflexivity. Qed.

Lemma append_empty_r s : s +:+ EmptyString = s.
Proof. induction s as [|c s IH]; [done|]. by rewrite append_cons, IH. Qed.

Lemma lower_char_comma c : lower_char c = ","%char → c = ","%char.
Proof. destruct c as [[] [] [] [] [] [] [] []]; vm_compute; congruence. Qed.

Lemma str_nat_not_empty (n : nat) : str_nat n ≠ EmptyString.
Proof.
  unfold str_nat, NilZero.string_of_uint. by destruct (Nat.to_uint n).
Qed.

Lemma strip_prefix_ci_app value s tail rest :
  strip_prefix_ci value s = Some rest →
  strip_prefix_ci value (s +:+ tail) = Some (rest +:+ tail).
Proof.
  revert s. induction value as [|a v IH]; intros s; simpl.
  - by intros [= ->].
  - destruct s as [|b s]; [done|]. simpl.
    destruct (Ascii.eqb (lower_char a) (lower_char b)); [apply IH | done].
Qed.

Lemma strip_prefix_ci_self value s : strip_prefix_ci value (value +:+ s) = Some s.
Proof.
  induction value as [|a v IH]; simpl; [done|]. by rewrite Ascii.eqb_refl.
Qed.

Lemma strip_prefix_ci_lower value s :
  lower s = lower value → strip_prefix_ci value s = Some EmptyString.
Proof.
  revert s. induction value as [|a v IH]; intros [|b s]; simpl; try done.
  intros [= Hab Hs]. rewrite Hab, Ascii.eqb_refl. by apply IH.
Qed.

Lemma span_digits_app ds tail :
  all_chars is_digit ds = true → leading_comma tail = 1 ∨ tail = EmptyString →
  span_digits (ds +:+ tail) = (ds, tail).
Proof.
  intros Hds Htail. induction ds as [|c ds IH]; simpl in *.
  - destruct Htail as [H| ->]; [|done].
    destruct tail as [|c tail]; [done|]. simpl in *.
    destruct (Ascii.eqb_spec c ","); [subst; done | done].
  - apply andb_prop in Hds as [-> Hds]. by rewrite IH.
Qed.

(** A match ends before or with the first comma of the text it starts in. *)
Lemma span_digits_bound s :
  String.length (fst (span_digits s)) + leading_comma (snd (span_digits s)) ≤ comma_bound s.
Proof.
  induction s as [|c s IH]; simpl; [done|].
  destruct (is_digit c) eqn:Hc.
  - destruct (span_digits s) as [ds rest]. simpl in *.
    destruct (Ascii.eqb_spec c ","); [subst; done | lia].
  - simpl. destruct (Ascii.eqb c ","); lia.
Qed.

Lemma match_bound value s rest :
  has_char "," value = false → strip_prefix_ci value s = Some rest →
  String.length value + String.length (fst (span_digits rest))
    + leading_comma (snd (span_digits rest)) ≤ comma_bound s.
Proof.
  revert s. induction value as [|a v IH]; intros s Hv; simpl.
  - intros [= ->]. apply span_digits_bound.
  - destruct s as [|b s]; [done|]. cbn [has_char] in Hv.
    destruct (Ascii.eqb_spec "," a) as [|Ha]; [done|].
    destruct (Ascii.eqb_spec (lower_char a) (lower_char b)) as [Hab|]; [|done].
    intros Hs. specialize (IH s Hv Hs). cbn [String.length comma_bound].
    destruct (Ascii.eqb_spec b ",") as [->|_]; [|lia].
    apply lower_char_comma in Hab. congruence.
Qed.

Lemma first_char_not_comma value s rest c :
  value ≠ EmptyString → has_char "," value = false →
  strip_prefix_ci value (String c s) = Some rest → c ≠ ","%char.
Proof.
  destruct value as [|a v]; [done|]. cbn [has_char strip_prefix_ci]. intros _ Hv.
  destruct (Ascii.eqb_spec "," a) as [|Ha]; [done|].
  destruct (Ascii.eqb_spec (lower_char a) (lower_char c)) as [Hac|]; [|done].
  intros _ ->. apply lower_char_comma in Hac. congruence.
Qed.

(** The scan is at the start of what follows a comma when it gets there. *)
Lemma scan_past_comma value pre s (skip : nat) :
  value ≠ EmptyString → has_char "," value = false →
  skip ≤ comma_bound (pre +:+ "," +:+ s) →
  ∃ ms, findall_counts value skip (pre +:+ "," +:+ s) = ms ++ findall_counts value 0 s.
Proof.
  intros Hne Hv. revert skip. induction pre as [|c pre IH]; intros skip Hskip.
  - change (EmptyString +:+ "," +:+ s) with (String "," s) in *.
    cbn [comma_bound] in Hskip. cbn [findall_counts].
    destruct skip as [|[|k]]; [|by exists []|simpl in Hskip; lia].
    destruct (strip_prefix_ci value (String "," s)) as [rest|] eqn:E; [|by exists []].
    by apply first_char_not_comma in E.
  - rewrite (append_cons c pre) in Hskip |- *.
    cbn [comma_bound] in Hskip. cbn [findall_counts].
    destruct skip as [|k].
    + destruct (strip_prefix_ci value (String c (pre +:+ "," +:+ s))) as [rest|] eqn:E.
      * pose proof (match_bound _ _ _ Hv E) as Hb.
        pose proof (first_char_not_comma _ _ _ _ Hne Hv E) as Hc.
        cbn [comma_bound] in Hb.
        destruct (Ascii.eqb_spec c ","); [done|].
        destruct (span_digits rest) as [ds rest2]. cbn [fst snd] in Hb. cbn iota in Hb.
        destruct (IH (String.length value + String.length ds + leading_comma rest2 - 1))
          as [ms Hms]; [lia|].
        exists (ds :: ms). by rewrite Hms.
      * apply IH. lia.
    + apply IH. destruct (Ascii.eqb c ","); lia.
Qed.

Lemma scan_match_at_start value n ds tail :
  value ≠ EmptyString → strip_prefix_ci value n = Some ds →
  all_chars is_digit ds = true → leading_comma tail = 1 ∨ tail = EmptyString →
  ∃ ms, findall_counts value 0 (n +:+ tail) = ds :: ms.
Proof.
  intros Hne Hn Hds Htail.
  destruct n as [|c n]; [by destruct value|].
  rewrite append_cons. cbn [findall_counts]. rewrite <- append_cons.
  rewrite (strip_prefix_ci_app _ _ tail _ Hn), span_digits_app by done.
  by eexists.
Qed.

Lemma scan_finds_name value names n ds :
  value ≠ EmptyString → has_char "," value = false →
  n ∈ names → strip_prefix_ci value n = Some ds → all_chars is_digit ds = true →
  ds ∈ findall_counts value 0 (join "," names).
Proof.
  intros Hne Hv Hin Hn Hds.
  induction names as [|m names IH]; [by apply not_elem_of_nil in Hin|].
  destruct (decide (n = m)) as [<-|Hnm].
  - destruct names as [|m2 names];
      [change (join "," [n]) with n
      |change (join "," (n :: m2 :: names)) with (n +:+ "," +:+ join "," (m2 :: names))].
    + destruct (scan_match_at_start value n ds EmptyString) as [ms Hms]; try done; [by right|].
      rewrite append_empty_r in Hms. rewrite Hms. left.
    + destruct (scan_match_at_start value n ds ("," +:+ join "," (m2 :: names)))
        as [ms Hms]; try done; [by left|].
      rewrite Hms. left.
  - apply elem_of_cons in Hin as [|Hin]; [done|].
    destruct names as [|m2 names]; [by apply not_elem_of_nil in Hin|].
    change (join "," (m :: m2 :: names)) with (m +:+ "," +:+ join "," (m2 :: names)).
    destruct (scan_past_comma value m (join "," (m2 :: names)) 0) as [ms ->]; [done|done|lia|].
    apply elem_of_app. right. by apply IH.
Qed.

Lemma avoid_duplicate_name_fresh names value :
  value ≠ EmptyString → has_char "," value = false →
  avoid_duplicate_name names value ∉ names.
Proof.
  intros Hne Hv. unfold avoid_duplicate_name.
  destruct (filter (λ n, lower n = lower value) names) as [|n0 l] eqn:Ef.
  { intros Hin.
    assert (value ∈ filter (λ n, lower n = lower value) names) as H
      by by apply list_elem_of_filter.
    rewrite Ef in H. by apply not_elem_of_nil in H. }
  assert (n0 ∈ filter (λ n, lower n = lower value) names) as Hn0 by (rewrite Ef; left).
  apply list_elem_of_filter in Hn0 as [Hlow Hn0].
  pose proof (scan_finds_name value names n0 EmptyString Hne Hv Hn0
                (strip_prefix_ci_lower _ _ Hlow) eq_refl) as Hempty.
  destruct (findall_counts value 0 (join "," names)) as [|m ms] eqn:Em;
    [by apply not_elem_of_nil in Hempty|].
  intros Hin.
  set (counts := int_of_digits <$> filter (λ ds, ds ≠ EmptyString) (m :: ms)) in *.
  pose proof (scan_finds_name value names _ (str_nat (max_list counts + 1)) Hne Hv Hin
                (strip_prefix_ci_self _ _) (digits_str_nat _)) as Hfound.
  rewrite Em in Hfound.
  assert (max_list counts + 1 ∈ counts) as Hc.
  { unfold counts. apply list_elem_of_fmap.
    exists (str_nat (max_list counts + 1)). split; [by rewrite int_of_digits_str_nat|].
    apply list_elem_of_filter. split; [apply str_nat_not_empty | done]. }
  apply max_list_elem_of_le in Hc. lia.
Qed.

Lemma sheet_title_fresh wb now : sheet_title wb now ∉ sheetnames wb.
Proof.
  apply avoid_duplicate_name_fresh; [apply strftime_not_empty|].
  by apply (has_char_all_chars date_char); [apply date_chars_strftime|].
Qed.

Lemma count_other_titles names t :
  t ∉ names → length (filter (λ s, s ≠ t) names) = length names.
Proof.
  intros Ht. induction names as [|n names IH]; [done|].
  apply not_elem_of_cons in Ht as [Hne Ht].
  rewrite filter_cons_True by done. simpl. by rewrite IH.
Qed.

(** The count in the Daily Average formula is the number of sheets the
    workbook had before the call. *)
Lemma built_sheet_days wb now usd_rate data :
  value_at (2, 6) (built_sheet wb now usd_rate data)
  = Some (SStr ("=E2/" +:+ str_nat (length (sheets wb)))).
Proof.
  rewrite built_sheet_F2, count_other_titles by apply sheet_title_fresh.
  unfold sheetnames. by rewrite length_fmap.
Qed.
End fresh_title.

(** ** The rate lookup *)

Section rate_lookup.
Implicit Types (reply : result response).

Lemma get_historical_rate_returns reply :
  get_historical_rate reply = (Ok (rate_value reply), rate_log reply).
Proof.
  unfold rate_value, rate_log, get_historical_rate.
  by destruct (bind reply _).
Qed.

Lemma rate_lookup_unreachable e :
  get_historical_rate (Raise e)
  = (Ok (JScalar SNone), [(ERROR, "Error API Dólar: " +:+ str_exn e)]).
Proof. reflexivity. Qed.

Lemma rate_lookup_undecodable e :
  get_historical_rate (Ok (Response (Raise e)))
  = (Ok (JScalar SNone), [(ERROR, "Error API Dólar: " +:+ str_exn e)]).
Proof. reflexivity. Qed.
End rate_lookup.

(** ** The dispatcher *)

Section dispatcher.
Implicit Types (e : env) (st : state).

(** Every path of [generate_report], by the answer of the sales backend. *)
Lemma generate_report_eq e st :
  generate_report e st =
    let lines := rate_log (quote_reply e) in
    let failed ex := (ERROR, "Error generando reporte: " +:+ str_exn ex) in
    match sales_reply e with
    | Raise ex =>
        (Raise ex, State (excel st) (files st) (log st ++ [failed ex]) (outbox st))
    | Ok [] =>
        (Ok tt, State (excel st) (files st)
                  ((log st ++ lines) ++ [(WARNING, "No hay ventas para reportar hoy")])
                  (outbox st))
    | Ok (s :: data) =>
        let wb := rendered e (s :: data) (workbook_of (excel st)) in
        let xl := mkExcel (file_path (excel st)) wb in
        match save_failure e with
        | Some ex =>
            (Raise ex, State xl (files st) ((log st ++ lines) ++ [failed ex]) (outbox st))
        | None =>
            (Raise NO_NAME,
             State xl (<[file_path (excel st) := wb]> (files st))
               ((log st ++ lines) ++ [failed NO_NAME]) (outbox st))
        end
    end.
Proof.
  unfold generate_report, try_except, bindM, get_daily_sales, call_get_historical_rate.
  rewrite get_historical_rate_returns.
  destruct (sales_reply e) as [[|s data]|ex]; [done| |done].
  unfold call_add_daily_sheet. cbn [excel files log outbox].
  rewrite add_daily_sheet_eq. fold (rendered e (s :: data) (workbook_of (excel st))).
  unfold save. cbn [excel files log outbox file_path workbook_of].
  destruct (save_failure e) as [ex|]; [done|].
  unfold send_report. cbn [excel files log outbox file_path workbook_of path_of].
  by rewrite lookup_insert_eq.
Qed.
End dispatcher.

(** ** Runs of the script *)

Section script_runs.
Implicit Types (e : env) (w : world).

Lemma init_loaded w :
  SalesReportExcel_init REPORT_PATH (w_files w) = Ok (mkExcel REPORT_PATH (loaded_workbook w)).
Proof.
  unfold SalesReportExcel_init, load_workbook, loaded_workbook.
  by destruct (w_files w !! REPORT_PATH).
Qed.

Lemma sheets_loaded w : sheets (loaded_workbook w) = report_sheets w.
Proof. unfold loaded_workbook, report_sheets. by destruct (w_files w !! REPORT_PATH). Qed.

Lemma main_files e w :
  w_files (snd (main e w)) =
    match sales_reply e, save_failure e with
    | Ok (s :: data), None =>
        <[REPORT_PATH := rendered e (s :: data) (loaded_workbook w)]> (w_files w)
    | _, _ => w_files w
    end.
Proof.
  unfold main. rewrite init_loaded, generate_report_eq. cbv zeta.
  destruct (sales_reply e) as [[|s data]|ex]; [done| |done].
  by destruct (save_failure e).
Qed.

Lemma main_outbox e w : w_outbox (snd (main e w)) = w_outbox w.
Proof.
  unfold main. rewrite init_loaded, generate_report_eq. cbv zeta.
  destruct (sales_reply e) as [[|s data]|ex]; [done| |done].
  by destruct (save_failure e).
Qed.

(** What a run does to the sheets of the report file. *)
Lemma main_report_sheets e w :
  report_sheets (snd (main e w)) =
    match sales_reply e, save_failure e with
    | Ok (s :: data), None =>
        report_sheets w
          ++ [built_sheet (loaded_workbook w) (sheet_clock e) (rate_value (quote_reply e)) (s :: data)]
    | _, _ => report_sheets w
    end.
Proof.
  unfold report_sheets at 1. rewrite main_files.
  destruct (sales_reply e) as [[|s data]|ex]; [done| |done].
  destruct (save_failure e); [done|].
  rewrite lookup_insert_eq. unfold rendered. cbn [sheets]. by rewrite sheets_loaded.
Qed.
End script_runs.

(** ** Sheets over the life of the report file *)

Section report_file.
Implicit Types (e : env) (w : world) (es : list env).

Lemma runs_sheets_origin es w ws :
  ws ∈ report_sheets (runs es w) →
  ws ∈ report_sheets w ∨
  ∃ e s data, e ∈ es ∧ sales_reply e = Ok (s :: data) ∧ date_titled (sheet_clock e) (title ws).
Proof.
  revert w. induction es as [|e es IH]; intros w Hin; [by left|].
  change (runs (e :: es) w) with (runs es (snd (main e w))) in Hin.
  apply IH in Hin as [Hin|(e2 & s & data & He2 & Hs & Ht)].
  - rewrite main_report_sheets in Hin.
    destruct (sales_reply e) as [[|s data]|ex] eqn:Hs; [by left| |by left].
    destruct (save_failure e); [by left|].
    apply elem_of_app in Hin as [Hin|Hin]; [by left|].
    apply list_elem_of_singleton in Hin as ->.
    right. exists e, s, data. split_and!; [left|done|].
    rewrite title_built_sheet. apply sheet_title_date_titled.
  - right. exists e2, s, data. split_and!; [by right|done|done].
Qed.

Lemma report_sheets_no_file w : w_files w !! REPORT_PATH = None → report_sheets w = [].
Proof. unfold report_sheets. by intros ->. Qed.
End report_file.

(** ** Scenarios *)

(** Two sales on the day after a first report: the average divides E2 by 1
    and leaves E3 out, the total sums both. *)
Example two_sales_second_day :
  ∃ w, new_sheet (add_daily_sheet jan2 [a_sale; b_sale] (JScalar (SInt 1000)) one_sheet) = Some w ∧
    title w = "2024-01-02" ∧
    value_at (2, 5) w = Some (SStr "=C1*1000") ∧
    value_at (3, 5) w = Some (SStr "=C2*1000") ∧
    value_at (2, 6) w = Some (SStr "=E2/1") ∧
    value_at (3, 6) w = Some (SStr EmptyString) ∧
    value_at (2, 7) w = Some (SStr "=SUM(E2:E3)").
Proof. eexists. split; [apply new_sheet_add_daily_sheet|]. vm_compute. done. Qed.

(** A second report on the same date gets the date and a number as title. *)
Example same_day_title :
  title <$> new_sheet (add_daily_sheet jan1 [b_sale] (JScalar (SInt 1000)) one_sheet)
  = Some "2024-01-011".
Proof. vm_compute. reflexivity. Qed.

(** Two runs on consecutive days: the second average divides by 1. *)
Example two_runs_second_denominator :
  (λ ws, (title ws, value_at (2, 6) ws)) <$> report_sheets (runs [busy_day jan1; busy_day jan2] no_files)
  = [("2024-01-01", Some (SStr "=E2/0")); ("2024-01-02", Some (SStr "=E2/1"))].
Proof. vm_compute. reflexivity. Qed.

(** A run with sales ends in the mail step, where the path, a string, is
    asked for its [name]: no mail leaves. *)
Lemma run_with_sales_raises_in_mail_step (e : env) (st : state) (s : Sale) (data : list Sale) :
  sales_reply e = Ok (s :: data) → save_failure e = None →
  fst (generate_report e st) = Raise NO_NAME ∧
  outbox (snd (generate_report e st)) = outbox st.
Proof. intros Hs Hf. rewrite generate_report_eq, Hs, Hf. done. Qed.

(** * The claims *)

(** C1 (the code departs from it). In every data row the local-currency
    formula names the source-amount cell of the row above: the sale at index
    [k] of the list lands in row [k + 2], its amount in column C of that row,
    and its formula in column E reads C[k + 1], which is not the formula on
    C[k + 2] the row's own amount would need. In the first data row the cell
    read is the header text of column C. *)
Theorem local_amount_formula_reads_row_above :
  ∀ (wb : workbook) (now : datetime) (usd_rate : json) (data : list Sale) (k : nat) (sale : Sale),
    data !! k = Some sale →
    ∃ w, new_sheet (add_daily_sheet now data usd_rate wb) = Some w ∧
      value_at (2 + k, 3) w = Some (amount sale) ∧
      value_at (2 + k, 5) w
        = Some (SStr ("=C" +:+ str_nat (1 + k) +:+ "*" +:+ str_json usd_rate)) ∧
      value_at (2 + k, 5) w
        ≠ Some (SStr ("=C" +:+ str_nat (2 + k) +:+ "*" +:+ str_json usd_rate)) ∧
      value_at (1, 3) w = Some (SStr "Importe USD").
Proof.
  intros wb now usd_rate data k sale Hk.
  exists (built_sheet wb now usd_rate data).
  split; [apply new_sheet_add_daily_sheet|].
  rewrite (built_sheet_row _ _ _ _ k sale 3 Hk) by lia.
  rewrite (built_sheet_row _ _ _ _ k sale 5 Hk) by lia.
  rewrite built_sheet_header by lia.
  split_and!; try done.
  simpl. intros [= H]. apply (f_equal (λ s, "=C" +:+ s)) in H.
  apply amount_formula_inj in H. lia.
Qed.

Lemma local_amount_formula_reads_row_above_scenario :
  [a_sale] !! 0 = Some a_sale ∧
  ∃ w, new_sheet (add_daily_sheet jan1 [a_sale] (JScalar (SInt 1000)) no_sheets) = Some w ∧
    value_at (2, 3) w = Some (SInt 100) ∧
    value_at (2, 5) w = Some (SStr "=C1*1000") ∧
    value_at (2, 5) w ≠ Some (SStr "=C2*1000") ∧
    value_at (1, 3) w = Some (SStr "Importe USD").
Proof.
  split; [reflexivity|].
  exact (local_amount_formula_reads_row_above no_sheets jan1 (JScalar (SInt 1000))
           [a_sale] 0 a_sale eq_refl).
Defined.

(** C2 (the code departs from it). The Daily Average formula stands in F2 of
    the new sheet, and in no later F cell, and its denominator is the number
    of sheets the workbook had before the call. Its numerator is the single
    cell E2: column E holds one local-currency formula for each sale, in the
    rows 2 to [1 + length data], and only G2 sums that range. *)
Theorem daily_average_formula_divides_E2_alone :
  ∀ (wb : workbook) (now : datetime) (usd_rate : json) (data : list Sale),
    ∃ w, new_sheet (add_daily_sheet now data usd_rate wb) = Some w ∧
      value_at (2, 6) w = Some (SStr ("=E2/" +:+ str_nat (length (sheets wb)))) ∧
      value_at (2, 7) w = Some (SStr ("=SUM(E2:E" +:+ str_nat (1 + length data) +:+ ")")) ∧
      (∀ (k : nat) sale, data !! k = Some sale →
         value_at (2 + k, 5) w
           = Some (SStr ("=C" +:+ str_nat (1 + k) +:+ "*" +:+ str_json usd_rate))) ∧
      (∀ (k : nat) sale, data !! (S k) = Some sale →
         value_at (3 + k, 6) w = Some (SStr EmptyString)).
Proof.
  intros wb now usd_rate data. exists (built_sheet wb now usd_rate data).
  split_and!.
  - apply new_sheet_add_daily_sheet.
  - apply built_sheet_days.
  - apply built_sheet_G2.
  - intros k sale Hk. by rewrite (built_sheet_row _ _ _ _ k sale 5 Hk) by lia.
  - intros k sale Hk. by rewrite (built_sheet_row _ _ _ _ (S k) sale 6 Hk) by lia.
Qed.

(** C3. The Cumulative Total formula stands in G2 of the new sheet. It is the
    text of a SUM over E2 to E[last_row], where [last_row], one more than the
    number of sales, is the last populated row when the formula is written:
    the rows 2 to [last_row] hold the local-currency formulas of the sales and
    no cell lies below them. The cell is a formula cell, the text names no
    other sheet, and the G cells of the later rows keep their blank
    placeholder. *)
Theorem cumulative_total_formula_sums_own_column :
  ∀ (wb : workbook) (now : datetime) (usd_rate : json) (data : list Sale),
    ∃ w, new_sheet (add_daily_sheet now data usd_rate wb) = Some w ∧
      let last_row := 1 + length data in
      let total := "=SUM(E2:E" +:+ str_nat last_row +:+ ")" in
      value_at (2, 7) w = Some (SStr total) ∧
      data_type_of (SStr total) = TFormula ∧
      has_char "!" total = false ∧
      (∀ (k : nat) sale, data !! k = Some sale →
         2 + k ≤ last_row ∧
         value_at (2 + k, 5) w
           = Some (SStr ("=C" +:+ str_nat (1 + k) +:+ "*" +:+ str_json usd_rate))) ∧
      (∀ (k : nat) sale, data !! (S k) = Some sale →
         value_at (3 + k, 7) w = Some (SStr EmptyString)) ∧
      (∀ r c : nat, last_row < r → 2 < r → value_at (r, c) w = None).
Proof.
  intros wb now usd_rate data. exists (built_sheet wb now usd_rate data).
  split; [apply new_sheet_add_daily_sheet|]. cbv zeta.
  split_and!.
  - apply built_sheet_G2.
  - done.
  - by rewrite !has_char_app, has_char_str_nat.
  - intros k sale Hk. split; [apply lookup_lt_Some in Hk; lia|].
    by rewrite (built_sheet_row _ _ _ _ k sale 5 Hk) by lia.
  - intros k sale Hk.
    by rewrite (built_sheet_row _ _ _ _ (S k) sale 7 Hk) by lia.
  - intros r c Hr H2. by apply built_sheet_beyond.
Qed.

(** C4. On a workbook with no sheet the count of the other sheets is 0, and
    the Daily Average cell of the new sheet holds the formula text that
    divides E2 by 0: the call returns normally and nothing guards the
    denominator. *)
Theorem first_sheet_daily_average_divides_by_zero :
  ∀ (wb : workbook) (now : datetime) (usd_rate : json) (data : list Sale),
    sheets wb = [] →
    ∃ wb2 w, add_daily_sheet now data usd_rate wb = Ok wb2 ∧
      sheets wb2 = [w] ∧
      days_count_of wb2 w = 0 ∧
      value_at (2, 6) w = Some (SStr "=E2/0") ∧
      data_type_of (SStr "=E2/0") = TFormula.
Proof.
  intros wb now usd_rate data Hwb.
  eexists _, (built_sheet wb now usd_rate data).
  split; [apply add_daily_sheet_eq|]. cbn [sheets]. rewrite Hwb.
  split_and!; try done.
  - apply (days_count_last [] _ (active_sheet_index wb)).
  - rewrite built_sheet_F2. unfold sheetnames. by rewrite Hwb.
Qed.

Lemma first_sheet_daily_average_divides_by_zero_scenario :
  sheets no_sheets = [] ∧
  ∃ wb2 w, add_daily_sheet jan1 [a_sale] (JScalar (SInt 1000)) no_sheets = Ok wb2 ∧
    sheets wb2 = [w] ∧
    days_count_of wb2 w = 0 ∧
    value_at (2, 6) w = Some (SStr "=E2/0") ∧
    data_type_of (SStr "=E2/0") = TFormula.
Proof.
  split; [reflexivity|].
  exact (first_sheet_daily_average_divides_by_zero no_sheets jan1 (JScalar (SInt 1000))
           [a_sale] eq_refl).
Defined.

(** C5. When the sales fetch returns an empty sequence the run returns
    normally: the report object, and so its workbook, is the one the run
    started with, no file changed, no mail left, and the log gained the lines
    of the rate lookup and then the warning. *)
Theorem run_without_sales_changes_nothing :
  ∀ (e : env) (st : state),
    sales_reply e = Ok [] →
    ∃ st2, generate_report e st = (Ok tt, st2) ∧
      excel st2 = excel st ∧
      files st2 = files st ∧
      outbox st2 = outbox st ∧
      log st2 = (log st ++ rate_log (quote_reply e))
                  ++ [(WARNING, "No hay ventas para reportar hoy")].
Proof.
  intros e st He. rewrite generate_report_eq, He. cbv zeta. by eexists.
Qed.

Lemma run_without_sales_changes_nothing_quiet_day :
  sales_reply quiet_day = Ok [] ∧
  ∃ st2, generate_report quiet_day empty_state = (Ok tt, st2) ∧
    excel st2 = excel empty_state ∧
    files st2 = files empty_state ∧
    outbox st2 = outbox empty_state ∧
    log st2 = (log empty_state ++ rate_log (quote_reply quiet_day))
                ++ [(WARNING, "No hay ventas para reportar hoy")].
Proof.
  split; [reflexivity|].
  exact (run_without_sales_changes_nothing quiet_day empty_state eq_refl).
Defined.

(** C6. The rate lookup returns for every outcome of the request, and never
    with an exception. When the reply decodes to a dict whose entry
    [oficial] is a dict with an entry [value_avg], it returns that entry and
    logs nothing. In every other case it returns [None] and logs one error
    line with the text of the exception: the transport's or the decoder's
    own, the key error of the missing key, or the type error of the
    subscript on a value that is no dict. *)
Theorem get_historical_rate_never_raises :
  ∀ reply : result response,
    (∃ v lines, get_historical_rate reply = (Ok v, lines)) ∧
    match reply with
    | Raise ex | Ok (Response (Raise ex)) =>
        get_historical_rate reply
        = (Ok (JScalar SNone), [(ERROR, "Error API Dólar: " +:+ str_exn ex)])
    | Ok (Response (Ok (JDict d))) =>
        match dict_get "oficial" d with
        | Some (JDict d2) =>
            match dict_get "value_avg" d2 with
            | Some v => get_historical_rate reply = (Ok v, [])
            | None =>
                get_historical_rate reply
                = (Ok (JScalar SNone), [(ERROR, "Error API Dólar: " +:+ str_exn (KeyError "value_avg"))])
            end
        | Some oficial =>
            ∃ msg, getitem oficial "value_avg" = Raise (TypeError msg) ∧
              get_historical_rate reply
              = (Ok (JScalar SNone), [(ERROR, "Error API Dólar: " +:+ msg)])
        | None =>
            get_historical_rate reply
            = (Ok (JScalar SNone), [(ERROR, "Error API Dólar: " +:+ str_exn (KeyError "oficial"))])
        end
    | Ok (Response (Ok doc)) =>
        ∃ msg, getitem doc "oficial" = Raise (TypeError msg) ∧
          get_historical_rate reply
          = (Ok (JScalar SNone), [(ERROR, "Error API Dólar: " +:+ msg)])
    end.
Proof.
  intros reply. split.
  { rewrite get_historical_rate_returns. by eexists _, _. }
  destruct reply as [[[doc|ex]]|ex]; [|done..].
  unfold get_historical_rate. cbn [bind json_body].
  destruct doc as [v|l|d]; [destruct v; by eexists | by eexists |].
  cbn [getitem]. destruct (dict_get "oficial" d) as [o|]; [|done].
  cbn [bind]. destruct o as [v|l|d2]; [destruct v; by eexists | by eexists |].
  cbn [getitem]. by destruct (dict_get "value_avg" d2).
Qed.

(** C7 (the code departs from it). A run with sales whose rate lookup
    returned [None], and whose write goes through, adds its sheet to the
    workbook in memory and saves it: the file holds the workbook with the
    new sheet, and in every data row the local-currency formula carries the
    text None where the rate would stand. The run does not end there: the
    mail step asks the path, a string, for its [name], and the run ends with
    that exception, logged last, and no mail. It ends so with any other
    answer of the quote service as well: the missing rate is not what stops
    it. *)
Theorem run_with_absent_rate_renders_then_raises :
  ∀ (e : env) (st : state) (s : Sale) (data : list Sale),
    sales_reply e = Ok (s :: data) →
    fst (get_historical_rate (quote_reply e)) = Ok (JScalar SNone) →
    save_failure e = None →
    ∃ w, let st2 := snd (generate_report e st) in
      sheets (workbook_of (excel st2)) = sheets (workbook_of (excel st)) ++ [w] ∧
      files st2 !! file_path (excel st) = Some (workbook_of (excel st2)) ∧
      (∀ (k : nat) sale, (s :: data) !! k = Some sale →
         value_at (2 + k, 5) w = Some (SStr ("=C" +:+ str_nat (1 + k) +:+ "*None"))) ∧
      fst (generate_report e st) = Raise NO_NAME ∧
      last (log st2) = Some (error_line NO_NAME) ∧
      outbox st2 = outbox st ∧
      (∀ reply, fst (generate_report (with_quote e reply) st) = fst (generate_report e st)).
Proof.
  intros e st s data Hs Hr Hf.
  assert (rate_value (quote_reply e) = JScalar SNone) as Hv.
  { unfold rate_value. by rewrite Hr. }
  exists (built_sheet (workbook_of (excel st)) (sheet_clock e) (JScalar SNone) (s :: data)).
  rewrite generate_report_eq, Hs, Hf. cbv zeta. unfold rendered. rewrite Hv.
  cbn [fst snd files excel workbook_of log outbox].
  split_and!; try done.
  - by rewrite lookup_insert_eq.
  - intros k sale Hk.
    by rewrite (built_sheet_row _ _ _ _ k sale 5 Hk) by lia.
  - apply last_snoc.
  - intros reply. rewrite !generate_report_eq. cbv zeta.
    cbn [with_quote sales_reply save_failure]. by rewrite Hs, Hf.
Qed.

Lemma run_with_absent_rate_renders_then_raises_no_quote_day :
  sales_reply no_quote_day = Ok [a_sale] ∧
  fst (get_historical_rate (quote_reply no_quote_day)) = Ok (JScalar SNone) ∧
  save_failure no_quote_day = None ∧
  ∃ w, let st2 := snd (generate_report no_quote_day empty_state) in
    sheets (workbook_of (excel st2)) = sheets (workbook_of (excel empty_state)) ++ [w] ∧
    files st2 !! file_path (excel empty_state) = Some (workbook_of (excel st2)) ∧
    (∀ (k : nat) sale, [a_sale] !! k = Some sale →
       value_at (2 + k, 5) w = Some (SStr ("=C" +:+ str_nat (1 + k) +:+ "*None"))) ∧
    fst (generate_report no_quote_day empty_state) = Raise NO_NAME ∧
    last (log st2) = Some (error_line NO_NAME) ∧
    outbox st2 = outbox empty_state ∧
    (∀ reply, fst (generate_report (with_quote no_quote_day reply) empty_state)
              = fst (generate_report no_quote_day empty_state)).
Proof.
  split; [reflexivity|]. split; [reflexivity|]. split; [reflexivity|].
  exact (run_with_absent_rate_renders_then_raises no_quote_day empty_state a_sale []
           eq_refl eq_refl eq_refl).
Defined.

(** C8, as the code has it. [add_daily_sheet] always puts exactly one sheet
    after the sheets the workbook had and leaves those, and the active index,
    as they were. A run keeps the report object and the files untouched when
    the fetch failed or returned no sale, and otherwise adds that one sheet
    in memory; the only file a run may write is the report file, with the
    workbook in memory. Across the script, the sheets of the report file
    after a run are those before it, followed by at most one new sheet. *)
Theorem runs_only_append_sheets :
  (∀ (now : datetime) (data : list Sale) (usd_rate : json) (wb : workbook),
     ∃ w, add_daily_sheet now data usd_rate wb
          = Ok (Workbook (sheets wb ++ [w]) (active_sheet_index wb))) ∧
  (∀ (e : env) (st : state),
     let st2 := snd (generate_report e st) in
     match sales_reply e with
     | Ok (_ :: _) =>
         ∃ w, sheets (workbook_of (excel st2)) = sheets (workbook_of (excel st)) ++ [w]
     | _ => excel st2 = excel st ∧ files st2 = files st
     end ∧
     ∀ path, files st2 !! path = files st !! path ∨
             (path = file_path (excel st) ∧ files st2 !! path = Some (workbook_of (excel st2)))) ∧
  (∀ (e : env) (w : world),
     report_sheets (snd (main e w)) = report_sheets w ∨
     ∃ ws, report_sheets (snd (main e w)) = report_sheets w ++ [ws]).
Proof.
  split_and!.
  - intros now data usd_rate wb. eexists. apply add_daily_sheet_eq.
  - intros e st. cbv zeta. rewrite generate_report_eq. cbv zeta.
    destruct (sales_reply e) as [[|s data]|ex].
    + split; [done|]. intros path. by left.
    + destruct (save_failure e) as [ex|]; cbn [snd excel files workbook_of].
      * split; [by eexists|]. intros path. by left.
      * split; [by eexists|]. intros path.
        destruct (decide (path = file_path (excel st))) as [->|Hne].
        -- right. by rewrite lookup_insert_eq.
        -- left. by rewrite lookup_insert_ne.
    + split; [done|]. intros path. by left.
  - intros e w. rewrite main_report_sheets.
    destruct (sales_reply e) as [[|s data]|ex]; [by left| |by left].
    destruct (save_failure e); [by left|]. right. by eexists.
Qed.

(** C8 as worded fails on a day without sales: the run adds no sheet, in
    memory or in the report file. *)
Lemma quiet_day_adds_no_sheet :
  ¬ ((∃ w, sheets (workbook_of (excel (snd (generate_report quiet_day empty_state))))
           = sheets (workbook_of (excel empty_state)) ++ [w]) ∨
     (∃ w, report_sheets (snd (main quiet_day no_files)) = report_sheets no_files ++ [w])).
Proof. intros [[w H]|[w H]]; vm_compute in H; discriminate H. Qed.

(** C9. When the report file does not exist the constructor returns a report
    object whose workbook has no sheet: the default sheet is gone. From there
    on, whatever runs follow, every sheet of the report file was added by a
    run that had sales and is titled from the date of that run's clock
    reading. The first run that
    renders counts 0 other sheets: its Daily Average formula divides by 0. *)
Theorem workbook_starts_without_sheets :
  ∀ w0 : world,
    w_files w0 !! REPORT_PATH = None →
    (∃ xl, SalesReportExcel_init REPORT_PATH (w_files w0) = Ok xl ∧
       sheets (workbook_of xl) = [] ∧ start_state w0 = State xl (w_files w0) (w_log w0) (w_outbox w0)) ∧
    (∀ (es : list env) (ws : worksheet),
       ws ∈ report_sheets (runs es w0) →
       title ws ≠ "Sheet" ∧
       ∃ e s data, e ∈ es ∧ sales_reply e = Ok (s :: data) ∧
         date_titled (sheet_clock e) (title ws)) ∧
    (∀ (e : env) (s : Sale) (data : list Sale),
       sales_reply e = Ok (s :: data) →
       ∃ w, let wb2 := workbook_of (excel (snd (generate_report e (start_state w0)))) in
         sheets wb2 = [w] ∧ days_count_of wb2 w = 0 ∧
         value_at (2, 6) w = Some (SStr "=E2/0")).
Proof.
  intros w0 Hw0.
  assert (loaded_workbook w0 = Workbook [] 0) as Hl.
  { unfold loaded_workbook. by rewrite Hw0. }
  split_and!.
  - eexists. rewrite init_loaded. unfold start_state. by rewrite Hl.
  - intros es ws Hin. apply runs_sheets_origin in Hin as [Hin|Hin].
    + rewrite report_sheets_no_file in Hin by done. by apply not_elem_of_nil in Hin.
    + split; [|done]. destruct Hin as (e & _ & _ & _ & _ & Ht).
      by apply date_titled_not_default in Ht.
  - intros e s data Hs.
    exists (built_sheet (Workbook [] 0) (sheet_clock e) (rate_value (quote_reply e)) (s :: data)).
    cbv zeta. rewrite generate_report_eq, Hs. cbv zeta.
    unfold rendered, start_state. cbn [excel workbook_of file_path]. rewrite Hl.
    destruct (save_failure e); cbn [snd excel workbook_of sheets app];
      (split_and!;
       [reflexivity | apply (days_count_last [] _ 0) | exact (built_sheet_days (Workbook [] 0) _ _ _)]).
Qed.

Lemma workbook_starts_without_sheets_no_files :
  w_files no_files !! REPORT_PATH = None ∧
  (∃ xl, SalesReportExcel_init REPORT_PATH (w_files no_files) = Ok xl ∧
     sheets (workbook_of xl) = [] ∧
     start_state no_files = State xl (w_files no_files) (w_log no_files) (w_outbox no_files)) ∧
  (∀ (es : list env) (ws : worksheet),
     ws ∈ report_sheets (runs es no_files) →
     title ws ≠ "Sheet" ∧
     ∃ e s data, e ∈ es ∧ sales_reply e = Ok (s :: data) ∧
       date_titled (sheet_clock e) (title ws)) ∧
  (∀ (e : env) (s : Sale) (data : list Sale),
     sales_reply e = Ok (s :: data) →
     ∃ w, let wb2 := workbook_of (excel (snd (generate_report e (start_state no_files)))) in
       sheets wb2 = [w] ∧ days_count_of wb2 w = 0 ∧
       value_at (2, 6) w = Some (SStr "=E2/0")).
Proof.
  split; [reflexivity|].
  exact (workbook_starts_without_sheets no_files eq_refl).
Defined.

(** C10. With an empty sales list [add_daily_sheet] returns normally. The
    workbook gains one sheet, titled from the date of the clock reading; its
    first row is the header; F2 and G2 hold the two summary formulas, the
    Cumulative Total over the empty range E2:E1; every other cell of the
    sheet is a blank cell of row 2. *)
Theorem add_daily_sheet_with_no_sales :
  ∀ (wb : workbook) (now : datetime) (usd_rate : json),
    ∃ w, add_daily_sheet now [] usd_rate wb
           = Ok (Workbook (sheets wb ++ [w]) (active_sheet_index wb)) ∧
      title w = sheet_title wb now ∧
      date_titled now (title w) ∧
      (∀ c : nat, 1 ≤ c ≤ 7 → value_at (1, c) w = HEADER !! (c - 1)) ∧
      value_at (2, 6) w = Some (SStr ("=E2/" +:+ str_nat (length (sheets wb)))) ∧
      value_at (2, 7) w = Some (SStr "=SUM(E2:E1)") ∧
      (∀ (r c : nat) v, value_at (r, c) w = Some v →
         r = 1 ∨ (r = 2 ∧ (c = 6 ∨ c = 7 ∨ v = SNone))).
Proof.
  intros wb now usd_rate. exists (built_sheet wb now usd_rate []).
  split; [apply add_daily_sheet_eq|].
  rewrite title_built_sheet.
  split_and!.
  - done.
  - apply sheet_title_date_titled.
  - intros c Hc. by apply built_sheet_header.
  - apply built_sheet_days.
  - apply built_sheet_G2.
  - intros r c v. rewrite built_sheet_value.
    destruct (data_sheet_spec (sheet_title wb now) usd_rate []) as (Hf & _).
    simpl in Hf.
    pose proof (filled_value_at 1 _ r c Hf) as Hdom.
    repeat case_decide; simplify_eq; intros Hv; try (right; lia).
    + destruct (value_at (r, c) _) as [x|] eqn:E.
      * assert (1 ≤ r ≤ 1) by (apply Hdom; by eexists). simpl in *. lia.
      * simpl in *. injection Hv as <-. right. split; [lia|]. by right; right.
    + assert (1 ≤ r ≤ 1) by (apply Hdom; by eexists). lia.
Qed.

(** * Further properties of the code *)

(** ** The layout of the new sheet *)

Section sheet_layout.
Implicit Types (w : worksheet) (wb : workbook) (data : list Sale) (usd_rate : json).

Lemma built_sheet_populated wb now usd_rate data (r c : nat) :
  is_Some (value_at (r, c) (built_sheet wb now usd_rate data))
  ↔ 1 ≤ r ≤ 2 `max` (1 + length data) ∧ 1 ≤ c ≤ 7.
Proof.
  rewrite built_sheet_value.
  destruct (data_sheet_spec (sheet_title wb now) usd_rate data) as (Hf & _).
  pose proof (filled_value_at _ _ r c Hf) as Hdom.
  repeat case_decide; simplify_eq.
  - split; [lia | by eexists].
  - split; [lia | by eexists].
  - split; [lia | by eexists].
  - rewrite Hdom. lia.
Qed.

(** Borders. *)
Lemma is_Some_border_at k w : is_Some (border_at k w) ↔ is_Some (cells w !! k).
Proof. unfold border_at. apply fmap_is_Some. Qed.

Lemma border_at_set_value k v w k2 :
  border_at k2 (set_value k v w) =
    if decide (k2 = k) then Some (default NoBorder (border_at k w)) else border_at k2 w.
Proof.
  unfold border_at, set_value. simpl. destruct (decide (k2 = k)) as [->|Hne].
  - rewrite lookup_alter_eq, get_cell_lookup. case_decide; [|done].
    simpl. by destruct (cells w !! k).
  - rewrite lookup_alter_ne, get_cell_lookup by done. by case_decide.
Qed.

Lemma border_at_set_border b k w k2 :
  border_at k2 (set_border b w k) = if decide (k2 = k) then Some b else border_at k2 w.
Proof.
  unfold border_at, set_border. simpl. destruct (decide (k2 = k)) as [->|Hne].
  - rewrite lookup_alter_eq, get_cell_lookup. by case_decide.
  - rewrite lookup_alter_ne, get_cell_lookup by done. by case_decide.
Qed.

Lemma border_at_borders b ks w k :
  border_at k (foldl (set_border b) w ks) = if decide (k ∈ ks) then Some b else border_at k w.
Proof.
  revert w. induction ks as [|k0 ks IH]; intros w; simpl.
  - done.
  - rewrite IH, border_at_set_border.
    destruct (decide (k ∈ ks)) as [Hin|Hin].
    + rewrite decide_True; [done | by right].
    + destruct (decide (k = k0)) as [->|Hne].
      * rewrite decide_True; [done | by left].
      * rewrite decide_False; [done|]. by intros [?|?]%elem_of_cons.
Qed.

Lemma border_at_append (row : list scalar) w (r c : nat) b :
  border_at (r, c) (append row w) = Some b → b = NoBorder ∨ border_at (r, c) w = Some b.
Proof.
  unfold border_at, append. cbn [cells]. rewrite put_row_lookup.
  case_decide; [|by right]. destruct (row !! (c - 1)); [|done]. intros [= <-]. by left.
Qed.

Lemma data_sheet_unbordered t usd_rate data k b :
  border_at k (data_sheet t usd_rate data) = Some b → b = NoBorder.
Proof.
  unfold data_sheet.
  assert (∀ k b, border_at k (append HEADER (blank_sheet t)) = Some b → b = NoBorder) as H0.
  { intros [r c] b2 [?|H]%border_at_append; [done|].
    unfold border_at in H. simpl in H. by rewrite lookup_empty in H. }
  revert k b. generalize (append HEADER (blank_sheet t)) H0. clear H0.
  induction data as [|s data IH]; intros w Hw k b; simpl; [apply Hw|].
  apply IH. intros [r c] b2 [?|H]%border_at_append; [done|]. by apply Hw in H.
Qed.

Lemma built_sheet_border wb now usd_rate data (r c : nat) :
  border_at (r, c) (built_sheet wb now usd_rate data) =
    if decide (2 ≤ r ≤ 2 `max` (1 + length data) ∧ 1 ≤ c ≤ 7) then Some ThickBorder
    else if decide (r = 1 ∧ 1 ≤ c ≤ 7) then Some NoBorder
    else None.
Proof.
  set (t := sheet_title wb now).
  set (days := length (filter (λ s, s ≠ t) (sheetnames wb))).
  destruct (data_sheet_spec t usd_rate data) as (Hf & _ & Hmax & _).
  unfold built_sheet, finish. fold t. fold days.
  rewrite border_at_borders.
  destruct (summary_cells_bounds (1 + length data) (data_sheet t usd_rate data)
              (SStr ("=E2/" +:+ str_nat days))
              (SStr ("=SUM(E2:E" +:+ str_nat (max_row (data_sheet t usd_rate data)) +:+ ")"))
              Hf ltac:(lia)) as [Hr Hc].
  pose proof (filled_value_at _ _ r c Hf) as Hdom. rewrite is_Some_value_at in Hdom.
  rewrite !border_at_set_value.
  repeat case_decide; simplify_eq; try done;
    try match goal with
        | H : _ ∈ iter_rows _ _ |- _ => rewrite iter_rows_elem, Hr, Hc in H; lia
        | H : _ ∉ iter_rows _ _ |- _ => rewrite iter_rows_elem, Hr, Hc in H; try lia
        end.
  - destruct (border_at (r, c) _) as [b|] eqn:E.
    + by apply data_sheet_unbordered in E as ->.
    + assert (is_Some (border_at (r, c) (data_sheet t usd_rate data))) as [? Hs].
      { apply is_Some_border_at, Hdom. lia. }
      congruence.
  - apply eq_None_not_Some. rewrite is_Some_border_at, Hdom. lia.
Qed.
End sheet_layout.

(** X1. The layout of the new sheet, for every input: row 1 is the fixed
    header of seven columns; the sale at index [k] of the list occupies row
    [k + 2], with its client, products, amount and date unchanged in the
    columns A to D; below row 2 the columns F and G keep the empty text
    written as placeholder. *)
Theorem new_sheet_layout :
  ∀ (wb : workbook) (now : datetime) (usd_rate : json) (data : list Sale),
    ∃ w, new_sheet (add_daily_sheet now data usd_rate wb) = Some w ∧
      (value_at (1, 1) w, value_at (1, 2) w, value_at (1, 3) w, value_at (1, 4) w,
       value_at (1, 5) w, value_at (1, 6) w, value_at (1, 7) w)
      = (Some (SStr "Cliente"), Some (SStr "Productos"), Some (SStr "Importe USD"),
         Some (SStr "Fecha"), Some (SStr "Importe ARS"), Some (SStr "Promedio Diario"),
         Some (SStr "Acumulado")) ∧
      (∀ (k : nat) sale, data !! k = Some sale →
         value_at (2 + k, 1) w = Some (client sale) ∧
         value_at (2 + k, 2) w = Some (products sale) ∧
         value_at (2 + k, 3) w = Some (amount sale) ∧
         value_at (2 + k, 4) w = Some (date sale)) ∧
      (∀ (k : nat) sale, data !! (S k) = Some sale →
         value_at (3 + k, 6) w = Some (SStr EmptyString) ∧
         value_at (3 + k, 7) w = Some (SStr EmptyString)).
Proof.
  intros wb now usd_rate data. exists (built_sheet wb now usd_rate data).
  split; [apply new_sheet_add_daily_sheet|]. split_and!.
  - by rewrite !built_sheet_header by lia.
  - intros k sale Hk.
    by rewrite !(built_sheet_row _ _ _ _ k sale _ Hk) by lia.
  - intros k sale Hk.
    by rewrite !(built_sheet_row _ _ _ _ (S k) sale _ Hk) by lia.
Qed.

(** X2. The cells of the new sheet form a block of seven columns: the rows 1
    to [1 + length data], and row 2 also when there is no sale. No cell
    lies outside the block. *)
Theorem new_sheet_populated_block :
  ∀ (wb : workbook) (now : datetime) (usd_rate : json) (data : list Sale),
    ∃ w, new_sheet (add_daily_sheet now data usd_rate wb) = Some w ∧
      ∀ r c : nat, is_Some (cells w !! (r, c))
                   ↔ 1 ≤ r ≤ 2 `max` (1 + length data) ∧ 1 ≤ c ≤ 7.
Proof.
  intros wb now usd_rate data. exists (built_sheet wb now usd_rate data).
  split; [apply new_sheet_add_daily_sheet|].
  intros r c. rewrite <- is_Some_value_at. apply built_sheet_populated.
Qed.

(** X3. Every cell of the new sheet from row 2 down carries the thick border,
    the cells of the header row carry none. *)
Theorem new_sheet_borders :
  ∀ (wb : workbook) (now : datetime) (usd_rate : json) (data : list Sale),
    ∃ w, new_sheet (add_daily_sheet now data usd_rate wb) = Some w ∧
      ∀ (r c : nat) b, border_at (r, c) w = Some b →
        (2 ≤ r → b = ThickBorder) ∧ (r = 1 → b = NoBorder).
Proof.
  intros wb now usd_rate data. exists (built_sheet wb now usd_rate data).
  split; [apply new_sheet_add_daily_sheet|].
  intros r c b. rewrite built_sheet_border.
  repeat case_decide; intros [= <-]; split; intros; try done; lia.
Qed.

(** ** Sheet names *)

Section sheet_names.
Implicit Types (w : worksheet) (wb : workbook) (data : list Sale) (usd_rate : json).

Lemma sheetnames_add_daily_sheet now data usd_rate wb :
  sheetnames (Workbook (sheets wb ++ [built_sheet wb now usd_rate data]) (active_sheet_index wb))
  = sheetnames wb ++ [sheet_title wb now].
Proof.
  unfold sheetnames. cbn [sheets]. rewrite fmap_app. f_equal.
  change (title <$> [built_sheet wb now usd_rate data])
    with [title (built_sheet wb now usd_rate data)].
  by rewrite title_built_sheet.
Qed.

Lemma append_inv_head (s t1 t2 : string) : s +:+ t1 = s +:+ t2 → t1 = t2.
Proof.
  induction s as [|c s IH]; [done|]. rewrite !append_cons. intros [= H]. by apply IH.
Qed.

Lemma parse_zero_pad (k n : nat) :
  ∃ u, NilEmpty.uint_of_string (zeros k +:+ str_nat n) = Some u ∧ Nat.of_uint u = n.
Proof.
  induction k as [|k (u & Hu & Hn)].
  - pose proof (int_of_digits_str_nat n) as H. unfold int_of_digits in H.
    change (zeros 0 +:+ str_nat n) with (str_nat n).
    destruct (NilEmpty.uint_of_string (str_nat n)) as [u|] eqn:E; [by exists u|].
    exfalso. revert E. unfold str_nat, NilZero.string_of_uint.
    destruct (Nat.to_uint n); try done; by rewrite NilEmpty.usu.
  - exists (Decimal.D0 u). split; [|done].
    change (zeros (S k) +:+ str_nat n) with (String "0" (zeros k +:+ str_nat n)).
    cbn [NilEmpty.uint_of_string]. by rewrite Hu.
Qed.

Lemma zero_pad_inj (width a b : nat) : zero_pad width a = zero_pad width b → a = b.
Proof.
  unfold zero_pad. intros H. apply (f_equal int_of_digits) in H. unfold int_of_digits in H.
  destruct (parse_zero_pad (width - String.length (str_nat a)) a) as (u & Hu & <-).
  destruct (parse_zero_pad (width - String.length (str_nat b)) b) as (v & Hv & <-).
  by rewrite Hu, Hv in H.
Qed.

(** Two dates print alike only when they are the same date. *)
Lemma strftime_inj (d1 d2 : datetime) : strftime d1 = strftime d2 → d1 = d2.
Proof.
  destruct d1 as [y1 m1 a1], d2 as [y2 m2 a2]. unfold strftime. cbn [year month day].
  intros H.
  assert (zero_pad 4 y1 = zero_pad 4 y2) as Hy.
  { exact (digits_prefix_unique _ _ "-" (zero_pad 2 m1 +:+ "-" +:+ zero_pad 2 a1)
             (zero_pad 2 m2 +:+ "-" +:+ zero_pad 2 a2)
             (digits_zero_pad _ _) (digits_zero_pad _ _) eq_refl H). }
  rewrite Hy in H. apply append_inv_head in H.
  change ("-" +:+ ?x) with (String "-" x) in H. injection H as H.
  assert (zero_pad 2 m1 = zero_pad 2 m2) as Hm.
  { exact (digits_prefix_unique _ _ "-" (zero_pad 2 a1) (zero_pad 2 a2)
             (digits_zero_pad _ _) (digits_zero_pad _ _) eq_refl H). }
  rewrite Hm in H. apply append_inv_head in H. injection H as H.
  apply zero_pad_inj in Hy, Hm, H. by subst.
Qed.

Lemma lower_char_date_char (c : ascii) : date_char c = true → lower_char c = c.
Proof. destruct c as [[] [] [] [] [] [] [] []]; vm_compute; congruence. Qed.

Lemma lower_date_chars (s : string) : all_chars date_char s = true → lower s = s.
Proof.
  induction s as [|c s IH]; [done|]. cbn [all_chars lower].
  intros [Hc Hs]%andb_prop. by rewrite lower_char_date_char, IH.
Qed.

(** A date that no sheet is named after names the new sheet. *)
Lemma sheet_title_new_date wb now (ds : list datetime) :
  sheetnames wb = strftime <$> ds → now ∉ ds → sheet_title wb now = strftime now.
Proof.
  intros Hn Hnow. apply sheet_title_no_collision. intros n Hin.
  rewrite Hn in Hin. apply list_elem_of_fmap in Hin as (d & -> & Hd).
  rewrite !lower_date_chars by apply date_chars_strftime.
  intros ->%strftime_inj. done.
Qed.
End sheet_names.

(** X4. Sheet names stay unique: when the titles of the workbook are pairwise
    different, so are they after [add_daily_sheet], whatever the date. *)
Theorem add_daily_sheet_keeps_names_unique :
  ∀ (wb : workbook) (now : datetime) (usd_rate : json) (data : list Sale),
    NoDup (sheetnames wb) →
    ∃ wb2, add_daily_sheet now data usd_rate wb = Ok wb2 ∧ NoDup (sheetnames wb2).
Proof.
  intros wb now usd_rate data Hnd. eexists. split; [apply add_daily_sheet_eq|].
  rewrite sheetnames_add_daily_sheet. apply NoDup_app. split_and!; [done| |apply NoDup_singleton].
  intros n Hn ->%list_elem_of_singleton. by apply (sheet_title_fresh wb now).
Qed.

Lemma add_daily_sheet_keeps_names_unique_one_sheet :
  NoDup (sheetnames one_sheet) ∧
  ∃ wb2, add_daily_sheet jan1 [b_sale] (JScalar (SInt 1000)) one_sheet = Ok wb2 ∧
    NoDup (sheetnames wb2).
Proof.
  assert (NoDup (sheetnames one_sheet)) as H by (vm_compute; apply NoDup_singleton).
  split; [exact H|].
  exact (add_daily_sheet_keeps_names_unique one_sheet jan1 (JScalar (SInt 1000)) [b_sale] H).
Defined.

(** X5. A second report on a date that already names a sheet does not touch
    that sheet: the new sheet goes after it under another title, the date
    followed by a number, which no sheet of the workbook had. *)
Theorem same_date_gets_numbered_title :
  ∀ (wb : workbook) (now : datetime) (usd_rate : json) (data : list Sale),
    strftime now ∈ sheetnames wb →
    ∃ w, add_daily_sheet now data usd_rate wb
           = Ok (Workbook (sheets wb ++ [w]) (active_sheet_index wb)) ∧
      title w ≠ strftime now ∧
      (title w ∉ sheetnames wb) ∧
      (∃ n : nat, title w = strftime now +:+ str_nat n).
Proof.
  intros wb now usd_rate data Hin. exists (built_sheet wb now usd_rate data).
  split; [apply add_daily_sheet_eq|]. rewrite title_built_sheet.
  pose proof (sheet_title_fresh wb now) as Hfresh.
  assert (sheet_title wb now ≠ strftime now) as Hne by (intros Heq; by rewrite Heq in Hfresh).
  split_and!; [done|done|].
  by destruct (sheet_title_date_titled wb now) as [?|?].
Qed.

Lemma same_date_gets_numbered_title_one_sheet :
  strftime jan1 ∈ sheetnames one_sheet ∧
  ∃ w, add_daily_sheet jan1 [b_sale] (JScalar (SInt 1000)) one_sheet
         = Ok (Workbook (sheets one_sheet ++ [w]) (active_sheet_index one_sheet)) ∧
    title w ≠ strftime jan1 ∧
    (title w ∉ sheetnames one_sheet) ∧
    (∃ n : nat, title w = strftime jan1 +:+ str_nat n).
Proof.
  assert (strftime jan1 ∈ sheetnames one_sheet) as H by (vm_compute; left).
  split; [exact H|].
  exact (same_date_gets_numbered_title one_sheet jan1 (JScalar (SInt 1000)) [b_sale] H).
Defined.

(** ** How a run ends *)

Section run_outcomes.
Implicit Types (e : env) (st : state) (w : world) (es : list env).

Lemma generate_report_outbox e st : outbox (snd (generate_report e st)) = outbox st.
Proof.
  rewrite generate_report_eq. cbv zeta.
  destruct (sales_reply e) as [[|s data]|ex]; [done| |done].
  by destruct (save_failure e).
Qed.

Lemma runs_outbox es w : w_outbox (runs es w) = w_outbox w.
Proof.
  revert w. induction es as [|e es IH]; intros w; [done|].
  change (runs (e :: es) w) with (runs es (snd (main e w))).
  by rewrite IH, main_outbox.
Qed.

End run_outcomes.

(** X6. No run sends the report: [generate_report] hands [send_report] the
    path as a string, whose [name] the attachment header asks for, so the
    outbox after a run, and after any sequence of runs of the script, is the
    outbox before. *)
Theorem no_run_sends_mail :
  (∀ (e : env) (st : state), outbox (snd (generate_report e st)) = outbox st) ∧
  (∀ (es : list env) (w : world), w_outbox (runs es w) = w_outbox w).
Proof. split; [apply generate_report_outbox | apply runs_outbox]. Qed.

(** X7. A run returns normally exactly when the sales fetch returned an empty
    list; with sales, or with a failed fetch, it ends with an exception. *)
Theorem run_returns_only_without_sales :
  ∀ (e : env) (st : state),
    fst (generate_report e st) = Ok tt ↔ sales_reply e = Ok [].
Proof.
  intros e st. rewrite generate_report_eq. cbv zeta.
  destruct (sales_reply e) as [[|s data]|ex]; [done| |done].
  by destruct (save_failure e).
Qed.

(** X8. A failed sales fetch ends the run at once: the exception leaves
    unchanged, the log gains the one line of the dispatcher, and nothing
    else changes. The quote service is not asked, so no line of the rate
    lookup is logged even when that service is down too. *)
Theorem failed_sales_fetch_is_fatal :
  ∀ (e : env) (st : state) (ex : exn),
    sales_reply e = Raise ex →
    generate_report e st
    = (Raise ex, State (excel st) (files st) (log st ++ [error_line ex]) (outbox st)).
Proof. intros e st ex He. by rewrite generate_report_eq, He. Qed.

Lemma failed_sales_fetch_is_fatal_backend_down :
  sales_reply backend_down_day = Raise (OtherError "ConnectionError" "connection refused") ∧
  generate_report backend_down_day empty_state
  = (Raise (OtherError "ConnectionError" "connection refused"),
     State (excel empty_state) (files empty_state)
       (log empty_state ++ [error_line (OtherError "ConnectionError" "connection refused")])
       (outbox empty_state)).
Proof.
  split; [reflexivity|].
  exact (failed_sales_fetch_is_fatal backend_down_day empty_state _ eq_refl).
Defined.

(** X9. When [save] cannot open the report file for writing, the run raises
    that exception and logs it last; no file has changed, yet the workbook
    in memory already has the new sheet. *)
Theorem failed_save_leaves_files_alone :
  ∀ (e : env) (st : state) (s : Sale) (data : list Sale) (ex : exn),
    sales_reply e = Ok (s :: data) → save_failure e = Some ex →
    ∃ w, let st2 := snd (generate_report e st) in
      fst (generate_report e st) = Raise ex ∧
      files st2 = files st ∧
      sheets (workbook_of (excel st2)) = sheets (workbook_of (excel st)) ++ [w] ∧
      last (log st2) = Some (error_line ex).
Proof.
  intros e st s data ex Hs Hf. eexists.
  rewrite generate_report_eq, Hs, Hf. cbv zeta. cbn [fst snd files excel workbook_of log].
  split_and!; [done|done|reflexivity|apply last_snoc].
Qed.

Lemma failed_save_leaves_files_alone_locked_file :
  sales_reply locked_file_day = Ok [a_sale] ∧
  save_failure locked_file_day = Some NO_PERMISSION ∧
  ∃ w, let st2 := snd (generate_report locked_file_day empty_state) in
    fst (generate_report locked_file_day empty_state) = Raise NO_PERMISSION ∧
    files st2 = files empty_state ∧
    sheets (workbook_of (excel st2)) = sheets (workbook_of (excel empty_state)) ++ [w] ∧
    last (log st2) = Some (error_line NO_PERMISSION).
Proof.
  split; [reflexivity|]. split; [reflexivity|].
  exact (failed_save_leaves_files_alone locked_file_day empty_state a_sale [] _ eq_refl eq_refl).
Defined.

(** X10. A run with sales whose write goes through has written the report
    file, with the new sheet, when the mail step raises: the run ends with
    that exception, logged last, and the file stays written. *)
Theorem written_file_survives_mail_failure :
  ∀ (e : env) (st : state) (s : Sale) (data : list Sale),
    sales_reply e = Ok (s :: data) → save_failure e = None →
    ∃ w, let st2 := snd (generate_report e st) in
      fst (generate_report e st) = Raise NO_NAME ∧
      files st2 !! file_path (excel st)
        = Some (Workbook (sheets (workbook_of (excel st)) ++ [w])
                  (active_sheet_index (workbook_of (excel st)))) ∧
      (∀ path, path ≠ file_path (excel st) → files st2 !! path = files st !! path) ∧
      last (log st2) = Some (error_line NO_NAME).
Proof.
  intros e st s data Hs Hf. eexists.
  rewrite generate_report_eq, Hs, Hf. cbv zeta. cbn [fst snd files excel workbook_of log].
  unfold rendered.
  split_and!; [done|by rewrite lookup_insert_eq| |apply last_snoc].
  intros path Hp. by rewrite lookup_insert_ne.
Qed.

Lemma written_file_survives_mail_failure_busy_day :
  sales_reply (busy_day jan1) = Ok [a_sale] ∧ save_failure (busy_day jan1) = None ∧
  ∃ w, let st2 := snd (generate_report (busy_day jan1) empty_state) in
    fst (generate_report (busy_day jan1) empty_state) = Raise NO_NAME ∧
    files st2 !! file_path (excel empty_state)
      = Some (Workbook (sheets (workbook_of (excel empty_state)) ++ [w])
                (active_sheet_index (workbook_of (excel empty_state)))) ∧
    (∀ path, path ≠ file_path (excel empty_state) → files st2 !! path = files empty_state !! path) ∧
    last (log st2) = Some (error_line NO_NAME).
Proof.
  split; [reflexivity|]. split; [reflexivity|].
  exact (written_file_survives_mail_failure (busy_day jan1) empty_state a_sale [] eq_refl eq_refl).
Defined.

(** X11. The log only grows: what was logged before a run stands first in
    the log after it. A run that raises has logged the dispatcher's error
    line for that exception as its last line. *)
Theorem run_log_grows :
  ∀ (e : env) (st : state),
    log st `prefix_of` log (snd (generate_report e st)) ∧
    ∀ ex, fst (generate_report e st) = Raise ex →
          last (log (snd (generate_report e st))) = Some (error_line ex).
Proof.
  intros e st. rewrite generate_report_eq. cbv zeta.
  destruct (sales_reply e) as [[|s data]|ex0].
  - split; [|done]. rewrite <- app_assoc. by apply prefix_app_r.
  - destruct (save_failure e) as [ex1|]; cbn [fst snd log].
    + split; [rewrite <- app_assoc; by apply prefix_app_r|].
      intros ex [= <-]. apply last_snoc.
    + split; [rewrite <- app_assoc; by apply prefix_app_r|].
      intros ex [= <-]. apply last_snoc.
  - cbn [fst snd log]. split; [by apply prefix_app_r|].
    intros ex [= <-]. apply last_snoc.
Qed.

(** ** From the quote service to the formulas *)

Section quote_to_formula.
Implicit Types (e : env) (st : state) (reply : result response).

Lemma rate_value_found d d2 v :
  dict_get "oficial" d = Some (JDict d2) → dict_get "value_avg" d2 = Some v →
  rate_value (Ok (Response (Ok (JDict d)))) = v.
Proof.
  intros Ho Hv. unfold rate_value, get_historical_rate.
  cbn [bind json_body getitem]. rewrite Ho. cbn [bind getitem]. by rewrite Hv.
Qed.
End quote_to_formula.

(** X13. The rate that the quote service reports is the rate the sheet
    multiplies by: when the reply holds [value_avg] under [oficial], every
    local-currency cell of the run's new sheet is a formula cell whose text
    ends in the star and that value as printed, a float in its own
    digits. *)
Theorem reported_rate_reaches_formulas :
  ∀ (e : env) (st : state) (s : Sale) (data : list Sale) d d2 (v : json),
    sales_reply e = Ok (s :: data) →
    quote_reply e = Ok (Response (Ok (JDict d))) →
    dict_get "oficial" d = Some (JDict d2) → dict_get "value_avg" d2 = Some v →
    ∃ w, last (sheets (workbook_of (excel (snd (generate_report e st))))) = Some w ∧
      ∀ (k : nat) sale, (s :: data) !! k = Some sale →
        value_at (2 + k, 5) w = Some (SStr ("=C" +:+ str_nat (1 + k) +:+ "*" +:+ str_json v)) ∧
        data_type_of (SStr ("=C" +:+ str_nat (1 + k) +:+ "*" +:+ str_json v)) = TFormula.
Proof.
  intros e st s data d d2 v Hs Hq Ho Hv.
  exists (built_sheet (workbook_of (excel st)) (sheet_clock e) v (s :: data)).
  rewrite generate_report_eq, Hs. cbv zeta. unfold rendered.
  rewrite Hq, (rate_value_found d d2 v Ho Hv).
  split; [destruct (save_failure e); apply last_snoc|].
  intros k sale Hk. split; [|done].
  by rewrite (built_sheet_row _ _ _ _ k sale 5 Hk) by lia.
Qed.

Lemma reported_rate_reaches_formulas_float :
  sales_reply float_rate_day = Ok [a_sale; b_sale] ∧
  ∃ w, last (sheets (workbook_of (excel (snd (generate_report float_rate_day empty_state)))))
       = Some w ∧
    ∀ (k : nat) sale, [a_sale; b_sale] !! k = Some sale →
      value_at (2 + k, 5) w = Some (SStr ("=C" +:+ str_nat (1 + k) +:+ "*" +:+ "1015.5")) ∧
      data_type_of (SStr ("=C" +:+ str_nat (1 + k) +:+ "*" +:+ "1015.5")) = TFormula.
Proof.
  split; [reflexivity|].
  exact (reported_rate_reaches_formulas float_rate_day empty_state a_sale [b_sale]
           _ _ (JScalar (SFloat "1015.5")) eq_refl eq_refl eq_refl eq_refl).
Defined.

(** X14. [get_daily_sales] lets every failure out: the exception of the
    request or of the decoder as it is, [KeyError] on [sales] for a dict
    without that key, a [TypeError] for a body that is no dict. Otherwise it
    returns the entry [sales] unchanged. *)
Theorem get_daily_sales_propagates_failures :
  ∀ reply : result response,
    match reply with
    | Raise ex | Ok (Response (Raise ex)) => OdooSalesData_get_daily_sales reply = Raise ex
    | Ok (Response (Ok (JDict d))) =>
        match dict_get "sales" d with
        | Some v => OdooSalesData_get_daily_sales reply = Ok v
        | None => OdooSalesData_get_daily_sales reply = Raise (KeyError "sales")
        end
    | Ok (Response (Ok _)) => ∃ msg, OdooSalesData_get_daily_sales reply = Raise (TypeError msg)
    end.
Proof.
  intros [[[doc|ex]]|ex]; [|done..].
  destruct doc as [v|l|d]; [destruct v; by eexists | by eexists |].
  unfold OdooSalesData_get_daily_sales. cbn [bind json_body getitem].
  by destruct (dict_get "sales" d).
Qed.

(** X15. A reply that decodes to a dict is answered by what it holds: the
    entry [value_avg] of the dict under [oficial], returned without a log
    line; else [None], with one log line that names the missing key,
    [oficial] or [value_avg], or carries the type error Python raises for
    the subscript on an [oficial] that is no dict. *)
Theorem rate_lookup_logs_missing_key :
  ∀ d : list (string * json),
    let answer := get_historical_rate (Ok (Response (Ok (JDict d)))) in
    let logged (text : string) := (Ok (JScalar SNone), [(ERROR, "Error API Dólar: " +:+ text)]) in
    match dict_get "oficial" d with
    | None => answer = logged "'oficial'"
    | Some (JDict d2) =>
        match dict_get "value_avg" d2 with
        | Some v => answer = (Ok v, [])
        | None => answer = logged "'value_avg'"
        end
    | Some (JList _) => answer = logged "list indices must be integers or slices, not str"
    | Some (JScalar (SStr _)) => answer = logged "string indices must be integers, not 'str'"
    | Some (JScalar SNone) => answer = logged "'NoneType' object is not subscriptable"
    | Some (JScalar (SBool _)) => answer = logged "'bool' object is not subscriptable"
    | Some (JScalar (SInt _)) => answer = logged "'int' object is not subscriptable"
    | Some (JScalar (SFloat _)) => answer = logged "'float' object is not subscriptable"
    end.
Proof.
  intros d. cbv zeta. unfold get_historical_rate. cbn [bind json_body getitem].
  destruct (dict_get "oficial" d) as [[v|l|d2]|]; cbn [bind getitem]; [| | |done].
  - by destruct v.
  - done.
  - by destruct (dict_get "value_avg" d2).
Qed.

(** ** [_calculate_financials] on any sheet *)

Section financials_frame.
Implicit Types (w : worksheet) (wb : workbook) (usd_rate : json).

Lemma calculate_financials_eq (i : nat) usd_rate wb w :
  sheets wb !! i = Some w →
  _calculate_financials i usd_rate wb
  = Ok (Workbook (<[i := finish (days_count_of wb w) w]> (sheets wb)) (active_sheet_index wb)).
Proof.
  intros Hi. unfold _calculate_financials, sheet_at. rewrite Hi. cbn [bind].
  rewrite setitem_F2. cbn [bind]. by rewrite setitem_G2.
Qed.

Lemma finish_first_row (days : nat) w (c : nat) :
  value_at (1, c) (finish days w) = value_at (1, c) w ∧
  border_at (1, c) (finish days w) = border_at (1, c) w.
Proof.
  unfold finish. split.
  - rewrite value_at_borders. rewrite decide_False by (rewrite iter_rows_elem; lia).
    rewrite !value_at_set_value. by repeat case_decide.
  - rewrite border_at_borders. rewrite decide_False by (rewrite iter_rows_elem; lia).
    rewrite !border_at_set_value. by repeat case_decide.
Qed.
End financials_frame.

(** X16. [_calculate_financials] on a sheet of any workbook writes the two
    summary formulas into F2 and G2 of that sheet and changes no other
    value that a cell of it holds; the first row keeps its values and its
    borders; the title stays, and so does every other sheet. The rate it is
    given plays no part. *)
Theorem calculate_financials_frame :
  ∀ (wb : workbook) (i : nat) (w : worksheet) (usd_rate : json),
    sheets wb !! i = Some w →
    ∃ w2, _calculate_financials i usd_rate wb
            = Ok (Workbook (<[i := w2]> (sheets wb)) (active_sheet_index wb)) ∧
      (∀ rate2, _calculate_financials i rate2 wb = _calculate_financials i usd_rate wb) ∧
      title w2 = title w ∧
      value_at (2, 6) w2 = Some (SStr ("=E2/" +:+ str_nat (days_count_of wb w))) ∧
      value_at (2, 7) w2 = Some (SStr ("=SUM(E2:E" +:+ str_nat (max_row w) +:+ ")")) ∧
      (∀ k v, k ≠ (2, 6) → k ≠ (2, 7) → value_at k w = Some v → value_at k w2 = Some v) ∧
      (∀ c : nat, value_at (1, c) w2 = value_at (1, c) w ∧ border_at (1, c) w2 = border_at (1, c) w) ∧
      (∀ j : nat, j ≠ i → (<[i := w2]> (sheets wb)) !! j = sheets wb !! j).
Proof.
  intros wb i w usd_rate Hi. exists (finish (days_count_of wb w) w).
  split_and!.
  - by apply calculate_financials_eq.
  - intros rate2. by rewrite !(calculate_financials_eq i _ wb w Hi).
  - apply title_finish.
  - apply finish_F2.
  - apply finish_G2.
  - intros k v H6 H7 Hv. by apply finish_keeps.
  - intros c. apply finish_first_row.
  - intros j Hj. by rewrite list_lookup_insert_ne.
Qed.

Lemma calculate_financials_frame_one_sheet :
  sheets one_sheet !! 0 = Some (built_sheet no_sheets jan1 (JScalar (SInt 1000)) [a_sale]) ∧
  ∃ w2, _calculate_financials 0 (JScalar SNone) one_sheet
          = Ok (Workbook (<[0 := w2]> (sheets one_sheet)) (active_sheet_index one_sheet)) ∧
    (∀ rate2, _calculate_financials 0 rate2 one_sheet
              = _calculate_financials 0 (JScalar SNone) one_sheet) ∧
    title w2 = title (built_sheet no_sheets jan1 (JScalar (SInt 1000)) [a_sale]) ∧
    value_at (2, 6) w2
      = Some (SStr ("=E2/" +:+ str_nat (days_count_of one_sheet
                      (built_sheet no_sheets jan1 (JScalar (SInt 1000)) [a_sale])))) ∧
    value_at (2, 7) w2
      = Some (SStr ("=SUM(E2:E" +:+
                str_nat (max_row (built_sheet no_sheets jan1 (JScalar (SInt 1000)) [a_sale])) +:+ ")")) ∧
    (∀ k v, k ≠ (2, 6) → k ≠ (2, 7) →
       value_at k (built_sheet no_sheets jan1 (JScalar (SInt 1000)) [a_sale]) = Some v →
       value_at k w2 = Some v) ∧
    (∀ c : nat,
       value_at (1, c) w2 = value_at (1, c) (built_sheet no_sheets jan1 (JScalar (SInt 1000)) [a_sale]) ∧
       border_at (1, c) w2
         = border_at (1, c) (built_sheet no_sheets jan1 (JScalar (SInt 1000)) [a_sale])) ∧
    (∀ j : nat, j ≠ 0 → (<[0 := w2]> (sheets one_sheet)) !! j = sheets one_sheet !! j).
Proof.
  split; [reflexivity|].
  exact (calculate_financials_frame one_sheet 0 _ (JScalar SNone) eq_refl).
Defined.

(** ** The report file over many runs *)

Section many_runs.
Implicit Types (e : env) (w : world) (es : list env).

Lemma main_report_sheets_renders e w :
  report_sheets (snd (main e w)) =
    if renders e
    then report_sheets w
           ++ [built_sheet (loaded_workbook w) (sheet_clock e) (rate_value (quote_reply e)) (sales_of e)]
    else report_sheets w.
Proof.
  rewrite main_report_sheets. unfold renders, sales_of.
  destruct (sales_reply e) as [[|s data]|ex]; [done| |done].
  by destruct (save_failure e).
Qed.

Lemma main_other_files e w path :
  path ≠ REPORT_PATH → w_files (snd (main e w)) !! path = w_files w !! path.
Proof.
  intros Hp. rewrite main_files.
  destruct (sales_reply e) as [[|s data]|ex]; [done| |done].
  destruct (save_failure e); [done|]. by rewrite lookup_insert_ne.
Qed.

Lemma runs_cons e es w : runs (e :: es) w = runs es (snd (main e w)).
Proof. reflexivity. Qed.

Lemma filter_renders_cons e es :
  filter (λ e, renders e) (e :: es)
  = if renders e then e :: filter (λ e, renders e) es else filter (λ e, renders e) es.
Proof.
  destruct (renders e) eqn:E.
  - rewrite filter_cons_True; [done|]. by rewrite E.
  - rewrite filter_cons_False; [done|]. rewrite E. intros [].
Qed.

Lemma runs_append es w :
  ∃ added, report_sheets (runs es w) = report_sheets w ++ added ∧
           length added = length (filter (λ e, renders e) es).
Proof.
  revert w. induction es as [|e es IH]; intros w.
  - exists []. by rewrite app_nil_r.
  - rewrite runs_cons, filter_renders_cons.
    destruct (IH (snd (main e w))) as (added & -> & Hlen).
    rewrite main_report_sheets_renders. destruct (renders e).
    + eexists (_ :: added). rewrite <- app_assoc. split; [done|]. simpl. by rewrite Hlen.
    + by exists added.
Qed.

Lemma runs_other_files es w path :
  path ≠ REPORT_PATH → w_files (runs es w) !! path = w_files w !! path.
Proof.
  intros Hp. revert w. induction es as [|e es IH]; intros w; [done|].
  by rewrite runs_cons, IH, main_other_files.
Qed.

Lemma runs_denominators es w :
  (∀ (i : nat) ws, report_sheets w !! i = Some ws →
     value_at (2, 6) ws = Some (SStr ("=E2/" +:+ str_nat i))) →
  ∀ (i : nat) ws, report_sheets (runs es w) !! i = Some ws →
    value_at (2, 6) ws = Some (SStr ("=E2/" +:+ str_nat i)).
Proof.
  revert w. induction es as [|e es IH]; intros w Hw; [done|].
  rewrite runs_cons. apply IH. intros i ws.
  rewrite main_report_sheets_renders. destruct (renders e); [|apply Hw].
  intros Hi. apply lookup_app_Some in Hi as [Hi|[Hlen Hi]]; [by apply Hw|].
  apply list_lookup_singleton_Some in Hi as [Hi <-].
  rewrite built_sheet_days, sheets_loaded.
  by replace i with (length (report_sheets w)) by lia.
Qed.

Lemma runs_titles es w (ds : list datetime) :
  title <$> report_sheets w = strftime <$> ds →
  NoDup (ds ++ render_dates es) →
  title <$> report_sheets (runs es w) = strftime <$> (ds ++ render_dates es).
Proof.
  revert w ds. induction es as [|e es IH]; intros w ds Hw Hnd.
  - unfold render_dates. simpl. by rewrite app_nil_r.
  - rewrite runs_cons. unfold render_dates in *. rewrite filter_renders_cons in Hnd |- *.
    destruct (renders e) eqn:Hr.
    + rewrite fmap_cons in *. rewrite cons_middle, app_assoc in Hnd |- *.
      apply IH; [|done].
      rewrite main_report_sheets_renders, Hr, !fmap_app, Hw. f_equal.
      change (title <$> [?x]) with [title x]. rewrite title_built_sheet.
      rewrite (sheet_title_new_date _ _ ds); [done| |].
      * unfold sheetnames. by rewrite sheets_loaded.
      * apply NoDup_app in Hnd as (Hnd & _). apply NoDup_app in Hnd as (_ & Hd & _).
        intros Hin. apply (Hd _ Hin). left.
    + apply IH; [|done]. by rewrite main_report_sheets_renders, Hr.
Qed.
End many_runs.

(** X17. The report file is only ever appended to: after any sequence of
    runs its sheets are the sheets it had, unchanged and in place, followed
    by one new sheet for each run that had sales and whose write went
    through; no other file is touched. *)
Theorem report_file_is_append_only :
  ∀ (es : list env) (w : world),
    (∃ added, report_sheets (runs es w) = report_sheets w ++ added ∧
              length added = length (filter (λ e, renders e) es)) ∧
    (∀ path, path ≠ REPORT_PATH → w_files (runs es w) !! path = w_files w !! path).
Proof.
  intros es w. split; [apply runs_append|]. intros path. apply runs_other_files.
Qed.

(** X18. Starting without a report file, the Daily Average formula of the
    sheet at place [i] of the file (counted from 0) divides by [i], whatever
    runs came and whatever their dates. *)
Theorem denominators_count_earlier_sheets :
  ∀ (es : list env) (w0 : world) (i : nat) (ws : worksheet),
    w_files w0 !! REPORT_PATH = None →
    report_sheets (runs es w0) !! i = Some ws →
    value_at (2, 6) ws = Some (SStr ("=E2/" +:+ str_nat i)).
Proof.
  intros es w0 i ws Hw0. apply runs_denominators.
  intros j x. by rewrite report_sheets_no_file.
Qed.

Lemma denominators_count_earlier_sheets_three_days :
  w_files no_files !! REPORT_PATH = None ∧
  (∃ ws, report_sheets (runs [busy_day jan1; quiet_day; busy_day jan2] no_files) !! 1 = Some ws ∧
     value_at (2, 6) ws = Some (SStr ("=E2/" +:+ str_nat 1))).
Proof.
  split; [reflexivity|].
  assert (is_Some (report_sheets (runs [busy_day jan1; quiet_day; busy_day jan2] no_files) !! 1))
    as [ws Hws] by (vm_compute; eauto).
  exists ws. split; [exact Hws|].
  exact (denominators_count_earlier_sheets _ no_files 1 ws eq_refl Hws).
Defined.

(** X19. Starting without a report file, when the runs that add a sheet fall
    on different dates, the titles of the file's sheets are those dates as
    printed, in the order of the runs. *)
Theorem sheets_are_titled_by_their_dates :
  ∀ (es : list env) (w0 : world),
    w_files w0 !! REPORT_PATH = None →
    NoDup (render_dates es) →
    title <$> report_sheets (runs es w0) = strftime <$> render_dates es.
Proof.
  intros es w0 Hw0 Hnd. apply (runs_titles es w0 []); [|done].
  by rewrite report_sheets_no_file.
Qed.

Lemma sheets_are_titled_by_their_dates_three_days :
  w_files no_files !! REPORT_PATH = None ∧
  NoDup (render_dates [busy_day jan1; quiet_day; busy_day jan2]) ∧
  title <$> report_sheets (runs [busy_day jan1; quiet_day; busy_day jan2] no_files)
  = strftime <$> render_dates [busy_day jan1; quiet_day; busy_day jan2].
Proof.
  assert (NoDup (render_dates [busy_day jan1; quiet_day; busy_day jan2])) as Hnd.
  { vm_compute. apply NoDup_cons. split; [|apply NoDup_singleton].
    intros H%list_elem_of_singleton. discriminate H. }
  split; [reflexivity|]. split; [exact Hnd|].
  exact (sheets_are_titled_by_their_dates _ no_files eq_refl Hnd).
Defined.
